(** * The police record chaincodes (policeman-record and fir-record)

    A shallow embedding of the two Hyperledger Fabric contracts of the
    repository,

      - policeman-record/chaincode-go/smartcontract.go
      - fir-record/chaincode-go/smartcontract.go

    and the properties of their authorization gate, of their create, read,
    update, delete and existence operations, of enumeration and of seeding.

    Go strings are [string]s (sequences of bytes).  A Go [error] is a value
    of [error], one constructor per place of the source that makes one.  A
    Go function that returns [(T, error)] returns a [result T].  The
    transaction context is threaded through every contract function by the
    monad [Tx]. *)

From Stdlib Require Import String Ascii.
From stdpp Require Import base option list gmap strings sorting.

Local Open Scope string_scope.

(** ** Errors and results *)

(** The errors the contracts return.  The comment after a constructor is
    the format string of the source. *)
Inductive error : Type :=
| External (msg : string)
    (* an error made outside the contract: by the ledger stub or by the
       client identity; returned as it is or wrapped *)
| JSONError (msg : string)
    (* an error of encoding/json, returned as it is *)
| UnableToGetMSPID (cause : error)
    (* "unable to get MSP ID: %v" *)
| AccessDenied
    (* "access denied: only Org1 (Police) can perform this operation" *)
| OfficerAlreadyExists (officerID : string)
    (* "the officer %s already exists" *)
| OfficerDoesNotExist (officerID : string)
    (* "the officer %s does not exist" *)
| FIRAlreadyExists (firID : string)
    (* "the FIR %s already exists" *)
| FIRDoesNotExist (firID : string)
    (* "the FIR %s does not exist" *)
| FailedToRead (cause : error)
    (* "failed to read from world state: %v" *)
| FailedToPut (cause : error)
    (* "failed to put to world state: %v" *).

(** The text of an error, as Go's [Error()] gives it. *)
Fixpoint Error (e : error) : string :=
  match e with
  | External msg => msg
  | JSONError msg => msg
  | UnableToGetMSPID cause => "unable to get MSP ID: " ++ Error cause
  | AccessDenied =>
      "access denied: only Org1 (Police) can perform this operation"
  | OfficerAlreadyExists officerID =>
      "the officer " ++ officerID ++ " already exists"
  | OfficerDoesNotExist officerID =>
      "the officer " ++ officerID ++ " does not exist"
  | FIRAlreadyExists firID => "the FIR " ++ firID ++ " already exists"
  | FIRDoesNotExist firID => "the FIR " ++ firID ++ " does not exist"
  | FailedToRead cause => "failed to read from world state: " ++ Error cause
  | FailedToPut cause => "failed to put to world state: " ++ Error cause
  end.

Inductive result (A : Type) : Type :=
| Ok (a : A)
| Err (e : error).
Arguments Ok {A} a.
Arguments Err {A} e.

(** The error taxonomy of the specification (its section 7), and the class
    of each error of the source. *)
Inductive ErrorKind : Type :=
| AuthorizationDenied
| NotFound
| AlreadyExists
| SerializationError
| StorageError.

Definition kind_of (e : error) : ErrorKind :=
  match e with
  | UnableToGetMSPID _ | AccessDenied => AuthorizationDenied
  | OfficerDoesNotExist _ | FIRDoesNotExist _ => NotFound
  | OfficerAlreadyExists _ | FIRAlreadyExists _ => AlreadyExists
  | JSONError _ => SerializationError
  | External _ | FailedToRead _ | FailedToPut _ => StorageError
  end.

(** [fails_with r k]: the call returned an error of class [k]. *)
Definition fails_with {A} (r : result A) (k : ErrorKind) : Prop :=
  match r with
  | Ok _ => False
  | Err e => kind_of e = k
  end.

(** ** encoding/json

    The library is modelled at the level of JSON texts.  A stored byte
    string is either the encoding of a JSON value or no JSON text at all;
    the encoding of strings is taken to be faithful, which it is for
    well-formed UTF-8 text (the encoder replaces ill-formed bytes by
    U+FFFD). *)

#[local] Set Warnings "-register-all".
Inductive Value : Type :=
| JNull
| JBool (b : bool)
| JNumber (literal : string)
| JString (s : string)
| JArray (elements : list Value)
| JObject (members : list (string * Value)).

Inductive bytes : Type :=
| Encoded (v : Value)
    (* the bytes of a JSON text for [v] *)
| Garbage (syntaxError : string)
    (* bytes that are no JSON text, with what the decoder says of them *).

(** A string field of a struct: its JSON name (the struct tag of the
    source), how to read it and how to assign it. *)
Record Field (T : Type) : Type := {
  tag : string;
  get : T -> string;
  set : string -> T -> T;
}.
Arguments tag {T} f.
Arguments get {T} f x.
Arguments set {T} f v x.

(** A struct type as encoding/json sees it by reflection. *)
Record Struct (T : Type) : Type := {
  typeName : string;
  zero : T;
  fields : list (Field T);
}.
Arguments typeName {T} s.
Arguments zero {T} s.
Arguments fields {T} s.

(** The bytes [json.Marshal] writes for a struct of strings: an object with
    one member per field, in the order of the declaration. *)
Definition encode {T} (S : Struct T) (x : T) : bytes :=
  Encoded (JObject (map (fun f => (tag f, JString (get f x))) (fields S))).

(** [json.Marshal] of a struct of strings never fails. *)
Definition Marshal {T} (S : Struct T) (x : T) : result bytes :=
  Ok (encode S x).

(** Key matching of the decoder: an exact match is preferred, then a match
    up to case.  [foldName] takes ASCII letters to upper case, and the two
    characters outside ASCII that fold to an ASCII letter, U+017F (bytes C5
    BF) and U+212A (bytes E2 84 AA), to S and K. *)
Definition upper (c : ascii) : ascii :=
  let n := nat_of_ascii c in
  if (97 <=? n)%nat && (n <=? 122)%nat then ascii_of_nat (n - 32) else c.

Fixpoint foldName (s : string) : string :=
  match s with
  | EmptyString => EmptyString
  | String c s' =>
      match nat_of_ascii c, s' with
      | 197, String d s'' =>
          if (nat_of_ascii d =? 191)%nat then String "S" (foldName s'')
          else String c (foldName s')
      | 226, String d (String e s'') =>
          if (nat_of_ascii d =? 132)%nat && (nat_of_ascii e =? 170)%nat
          then String "K" (foldName s'')
          else String c (foldName s')
      | _, _ => String (upper c) (foldName s')
      end
  end.

Definition lookupField {T} (S : Struct T) (key : string) : option (Field T) :=
  match find (fun f => String.eqb (tag f) key) (fields S) with
  | Some f => Some f
  | None =>
      find (fun f => String.eqb (foldName (tag f)) (foldName key)) (fields S)
  end.

(** What the decoder calls a JSON value in its type errors. *)
Definition valueKind (v : Value) : string :=
  match v with
  | JNull => "null"
  | JBool _ => "bool"
  | JNumber _ => "number"
  | JString _ => "string"
  | JArray _ => "array"
  | JObject _ => "object"
  end.

(** The members of an object are decoded in order: a member whose key
    matches no field is skipped, a string is assigned, null leaves the field
    as it is, and any other value is a type error. *)
Fixpoint decodeMembers {T} (S : Struct T) (members : list (string * Value))
    (x : T) : result T :=
  match members with
  | [] => Ok x
  | (key, v) :: members' =>
      match lookupField S key with
      | None => decodeMembers S members' x
      | Some f =>
          match v with
          | JString s => decodeMembers S members' (set f s x)
          | JNull => decodeMembers S members' x
          | _ =>
              Err (JSONError ("json: cannot unmarshal " ++ valueKind v ++
                              " into Go struct field " ++ typeName S ++ "." ++
                              tag f ++ " of type string"))
          end
      end
  end.

(** [json.Unmarshal(data, &x)] for [x] a struct of strings holding [x0]. *)
Definition Unmarshal_into {T} (S : Struct T) (data : bytes) (x0 : T)
    : result T :=
  match data with
  | Garbage syntaxError => Err (JSONError syntaxError)
  | Encoded JNull => Ok x0
  | Encoded (JObject members) => decodeMembers S members x0
  | Encoded v =>
      Err (JSONError ("json: cannot unmarshal " ++ valueKind v ++
                      " into Go value of type main." ++ typeName S))
  end.

(** [var x T; err := json.Unmarshal(data, &x)]. *)
Definition Unmarshal {T} (S : Struct T) (data : bytes) : result T :=
  Unmarshal_into S data (zero S).

(** ** The transaction context

    The ledger stub of a transaction reads the committed world state and
    records the calls made to it; the writes among them take effect when the
    transaction commits.  A call may fail for reasons outside the contract
    (the peer cannot be reached, the platform refuses the key, as it does an
    empty one): [fault] gives the calls the platform fails, with its error
    text. *)

Inductive StubCall : Type :=
| GetStateCall (key : string)
| PutStateCall (key : string) (value : bytes)
| DelStateCall (key : string)
| GetStateByRangeCall (startKey endKey : string)
| NextCall (key : string)
| CloseCall.

Record ChaincodeStub : Type := {
  state : gmap string bytes;
  fault : StubCall -> option string;
  calls : list StubCall;
}.

Record TransactionContext : Type := {
  MSPID : result string;
    (* what [GetClientIdentity().GetMSPID()] returns *)
  stub : ChaincodeStub;
}.

(** A contract function: it runs in a transaction context, may call the
    stub, and returns a value or an error. *)
Definition Tx (A : Type) : Type :=
  TransactionContext -> result A * TransactionContext.

Definition ret {A} (a : A) : Tx A := fun ctx => (Ok a, ctx).

Definition throw {A} (e : error) : Tx A := fun ctx => (Err e, ctx).

Definition bind {A B} (m : Tx A) (k : A -> Tx B) : Tx B :=
  fun ctx =>
    match m ctx with
    | (Ok a, ctx') => k a ctx'
    | (Err e, ctx') => (Err e, ctx')
    end.

Notation "'let*' x ':=' m 'in' k" := (bind m (fun x => k))
  (at level 10, x name, m at level 100, k at level 200,
   format "'[v' 'let*'  x  ':='  m  'in' '/' k ']'").

(** A value of a pure library call, in a transaction. *)
Definition lift {A} (r : result A) : Tx A := fun ctx => (r, ctx).

(** [v, err := m; if err != nil { return wrap(err) }]. *)
Definition wrapping {A} (wrap : error -> error) (m : Tx A) : Tx A :=
  fun ctx =>
    match m ctx with
    | (Ok a, ctx') => (Ok a, ctx')
    | (Err e, ctx') => (Err (wrap e), ctx')
    end.

(** [defer d]: [d] runs when the function returns, on every path. *)
Definition defer {A} (d : Tx unit) (m : Tx A) : Tx A :=
  fun ctx =>
    let '(r, ctx') := m ctx in
    (r, snd (d ctx')).

(** A call to the stub: it is recorded, and fails when the platform fails
    it. *)
Definition record_call (c : StubCall) (s : ChaincodeStub) : ChaincodeStub :=
  {| state := state s; fault := fault s; calls := calls s ++ [c] |}.

Definition logged (c : StubCall) (ctx : TransactionContext)
    : TransactionContext :=
  {| MSPID := MSPID ctx; stub := record_call c (stub ctx) |}.

Definition call {A} (c : StubCall) (answer : ChaincodeStub -> A) : Tx A :=
  fun ctx =>
    match fault (stub ctx) c with
    | Some msg => (Err (External msg), logged c ctx)
    | None => (Ok (answer (stub ctx)), logged c ctx)
    end.

(** [GetState] returns the committed value of the key, nil when there is
    none; it does not see what the transaction itself has written. *)
Definition GetState (key : string) : Tx (option bytes) :=
  call (GetStateCall key) (fun s => state s !! key).

Definition PutState (key : string) (value : bytes) : Tx unit :=
  call (PutStateCall key value) (fun _ => tt).

Definition DelState (key : string) : Tx unit :=
  call (DelStateCall key) (fun _ => tt).

(** [GetStateByRange(startKey, endKey)]: the entries with
    [startKey <= key < endKey] in the lexical order of their keys; an empty
    bound is open. *)
Definition inRange (startKey endKey key : string) : bool :=
  String.leb startKey key && (String.eqb endKey "" || String.ltb key endKey).

Definition keyLe (a b : string * bytes) : Prop := String.leb a.1 b.1 = true.

Global Instance keyLe_dec a b : Decision (keyLe a b).
Proof. unfold keyLe. apply _. Defined.

Definition rangeOf (startKey endKey : string) (m : gmap string bytes)
    : list (string * bytes) :=
  merge_sort keyLe
    (filter (fun kv => inRange startKey endKey kv.1 = true) (map_to_list m)).

Definition GetStateByRange (startKey endKey : string)
    : Tx (list (string * bytes)) :=
  call (GetStateByRangeCall startKey endKey)
       (fun s => rangeOf startKey endKey (state s)).

(** [resultsIterator.Next()] on an iterator whose next entry is [kv]. *)
Definition Next (kv : string * bytes) : Tx (string * bytes) :=
  call (NextCall kv.1) (fun _ => kv).

Definition Close : Tx unit := call CloseCall (fun _ => tt).

(** ** Transactions on the ledger *)

(** The effect of a recorded call on the world state, when the transaction
    commits. *)
Definition apply_call (fault : StubCall -> option string)
    (w : gmap string bytes) (c : StubCall) : gmap string bytes :=
  match fault c, c with
  | None, PutStateCall key value => <[key := value]> w
  | None, DelStateCall key => delete key w
  | _, _ => w
  end.

Definition commit (s : ChaincodeStub) : gmap string bytes :=
  foldl (apply_call (fault s)) (state s) (calls s).

(** A fresh context for a transaction of the caller [mspid] on the world
    state [w]. *)
Definition begin (mspid : result string) (fault : StubCall -> option string)
    (w : gmap string bytes) : TransactionContext :=
  {| MSPID := mspid; stub := {| state := w; fault := fault; calls := [] |} |}.

(** One invocation: the writes are committed when the function returns no
    error, and dropped when it returns one. *)
Definition Submit {A} (tx : Tx A) (mspid : result string)
    (fault : StubCall -> option string) (w : gmap string bytes)
    : result A * gmap string bytes :=
  match tx (begin mspid fault w) with
  | (Ok a, ctx') => (Ok a, commit (stub ctx'))
  | (Err e, _) => (Err e, w)
  end.

(** A platform on which no call fails. *)
Definition healthy : StubCall -> option string := fun _ => None.

(** ** policeman-record/chaincode-go/smartcontract.go *)

Module PolicemanRecord.

Record PolicePersonnel : Type := {
  OfficerID : string;
  Name : string;
  Rank : string;
  DOB : string;
  Posting : string;
  BadgeNumber : string;
  EmploymentStatus : string;
  DateOfJoining : string;
  Award : string;
  Suspension : string;
  LastUpdatedBy : string;
  LastUpdatedOn : string;
}.

(** Assignment to one field. *)
Definition set_OfficerID (v : string) (p : PolicePersonnel) :=
  Build_PolicePersonnel v (Name p) (Rank p) (DOB p) (Posting p)
    (BadgeNumber p) (EmploymentStatus p) (DateOfJoining p) (Award p)
    (Suspension p) (LastUpdatedBy p) (LastUpdatedOn p).
Definition set_Name (v : string) (p : PolicePersonnel) :=
  Build_PolicePersonnel (OfficerID p) v (Rank p) (DOB p) (Posting p)
    (BadgeNumber p) (EmploymentStatus p) (DateOfJoining p) (Award p)
    (Suspension p) (LastUpdatedBy p) (LastUpdatedOn p).
Definition set_Rank (v : string) (p : PolicePersonnel) :=
  Build_PolicePersonnel (OfficerID p) (Name p) v (DOB p) (Posting p)
    (BadgeNumber p) (EmploymentStatus p) (DateOfJoining p) (Award p)
    (Suspension p) (LastUpdatedBy p) (LastUpdatedOn p).
Definition set_DOB (v : string) (p : PolicePersonnel) :=
  Build_PolicePersonnel (OfficerID p) (Name p) (Rank p) v (Posting p)
    (BadgeNumber p) (EmploymentStatus p) (DateOfJoining p) (Award p)
    (Suspension p) (LastUpdatedBy p) (LastUpdatedOn p).
Definition set_Posting (v : string) (p : PolicePersonnel) :=
  Build_PolicePersonnel (OfficerID p) (Name p) (Rank p) (DOB p) v
    (BadgeNumber p) (EmploymentStatus p) (DateOfJoining p) (Award p)
    (Suspension p) (LastUpdatedBy p) (LastUpdatedOn p).
Definition set_BadgeNumber (v : string) (p : PolicePersonnel) :=
  Build_PolicePersonnel (OfficerID p) (Name p) (Rank p) (DOB p) (Posting p)
    v (EmploymentStatus p) (DateOfJoining p) (Award p)
    (Suspension p) (LastUpdatedBy p) (LastUpdatedOn p).
Definition set_EmploymentStatus (v : string) (p : PolicePersonnel) :=
  Build_PolicePersonnel (OfficerID p) (Name p) (Rank p) (DOB p) (Posting p)
    (BadgeNumber p) v (DateOfJoining p) (Award p)
    (Suspension p) (LastUpdatedBy p) (LastUpdatedOn p).
Definition set_DateOfJoining (v : string) (p : PolicePersonnel) :=
  Build_PolicePersonnel (OfficerID p) (Name p) (Rank p) (DOB p) (Posting p)
    (BadgeNumber p) (EmploymentStatus p) v (Award p)
    (Suspension p) (LastUpdatedBy p) (LastUpdatedOn p).
Definition set_Award (v : string) (p : PolicePersonnel) :=
  Build_PolicePersonnel (OfficerID p) (Name p) (Rank p) (DOB p) (Posting p)
    (BadgeNumber p) (EmploymentStatus p) (DateOfJoining p) v
    (Suspension p) (LastUpdatedBy p) (LastUpdatedOn p).
Definition set_Suspension (v : string) (p : PolicePersonnel) :=
  Build_PolicePersonnel (OfficerID p) (Name p) (Rank p) (DOB p) (Posting p)
    (BadgeNumber p) (EmploymentStatus p) (DateOfJoining p) (Award p)
    v (LastUpdatedBy p) (LastUpdatedOn p).
Definition set_LastUpdatedBy (v : string) (p : PolicePersonnel) :=
  Build_PolicePersonnel (OfficerID p) (Name p) (Rank p) (DOB p) (Posting p)
    (BadgeNumber p) (EmploymentStatus p) (DateOfJoining p) (Award p)
    (Suspension p) v (LastUpdatedOn p).
Definition set_LastUpdatedOn (v : string) (p : PolicePersonnel) :=
  Build_PolicePersonnel (OfficerID p) (Name p) (Rank p) (DOB p) (Posting p)
    (BadgeNumber p) (EmploymentStatus p) (DateOfJoining p) (Award p)
    (Suspension p) (LastUpdatedBy p) v.

(** The struct with its json tags. *)
Definition PolicePersonnel_json : Struct PolicePersonnel := {|
  typeName := "PolicePersonnel";
  zero := Build_PolicePersonnel "" "" "" "" "" "" "" "" "" "" "" "";
  fields := [
    {| tag := "officerId"; get := OfficerID; set := set_OfficerID |};
    {| tag := "name"; get := Name; set := set_Name |};
    {| tag := "rank"; get := Rank; set := set_Rank |};
    {| tag := "dob"; get := DOB; set := set_DOB |};
    {| tag := "posting"; get := Posting; set := set_Posting |};
    {| tag := "badgeNumber"; get := BadgeNumber; set := set_BadgeNumber |};
    {| tag := "employmentStatus"; get := EmploymentStatus;
       set := set_EmploymentStatus |};
    {| tag := "dateOfJoining"; get := DateOfJoining;
       set := set_DateOfJoining |};
    {| tag := "award"; get := Award; set := set_Award |};
    {| tag := "suspension"; get := Suspension; set := set_Suspension |};
    {| tag := "lastUpdatedBy"; get := LastUpdatedBy;
       set := set_LastUpdatedBy |};
    {| tag := "lastUpdatedOn"; get := LastUpdatedOn;
       set := set_LastUpdatedOn |}
  ];
|}.

Definition getMSPID : Tx string := fun ctx => (MSPID ctx, ctx).

Definition onlyPolice : Tx unit :=
  let* mspid := wrapping UnableToGetMSPID getMSPID in
  if negb (String.eqb mspid "Org1MSP") then throw AccessDenied
  else ret tt.

(** The loop [for _, p := range personnel] of [InitLedger]. *)
Fixpoint putAll (personnel : list PolicePersonnel) : Tx unit :=
  match personnel with
  | [] => ret tt
  | p :: rest =>
      let* pJSON := lift (Marshal PolicePersonnel_json p) in
      let* _ := wrapping FailedToPut (PutState (OfficerID p) pJSON) in
      putAll rest
  end.

Definition InitLedger : Tx unit :=
  let* _ := onlyPolice in
  let personnel := [
    {| OfficerID := "POL12345";
       Name := "Inspector Anjali Mehta";
       Rank := "Inspector";
       DOB := "1985-08-15";
       Posting := "Cyber Crime Unit, Mumbai";
       BadgeNumber := "MUM-4521";
       EmploymentStatus := "Active";
       DateOfJoining := "2010-06-12";
       Award := "Gallantry Award 2018";
       Suspension := "";
       LastUpdatedBy := "Org1";
       LastUpdatedOn := "2025-04-06" |}
  ] in
  putAll personnel.

Definition PersonnelExists (officerID : string) : Tx bool :=
  let* pJSON := wrapping FailedToRead (GetState officerID) in
  ret (bool_decide (pJSON <> None)).

Definition CreatePolicePersonnel
    (officerID name rank dob posting badgeNumber employmentStatus
     dateOfJoining award suspension lastUpdatedBy lastUpdatedOn : string)
    : Tx unit :=
  let* _ := onlyPolice in
  let* exists_ := PersonnelExists officerID in
  if exists_ then throw (OfficerAlreadyExists officerID)
  else
    let personnel := {|
      OfficerID := officerID;
      Name := name;
      Rank := rank;
      DOB := dob;
      Posting := posting;
      BadgeNumber := badgeNumber;
      EmploymentStatus := employmentStatus;
      DateOfJoining := dateOfJoining;
      Award := award;
      Suspension := suspension;
      LastUpdatedBy := lastUpdatedBy;
      LastUpdatedOn := lastUpdatedOn |} in
    let* pJSON := lift (Marshal PolicePersonnel_json personnel) in
    PutState officerID pJSON.

Definition ReadPolicePersonnel (officerID : string) : Tx PolicePersonnel :=
  let* _ := onlyPolice in
  let* pJSON := wrapping FailedToRead (GetState officerID) in
  match pJSON with
  | None => throw (OfficerDoesNotExist officerID)
  | Some pJSON =>
      let* personnel := lift (Unmarshal PolicePersonnel_json pJSON) in
      ret personnel
  end.

Definition UpdatePolicePersonnel
    (officerID name rank dob posting badgeNumber employmentStatus
     dateOfJoining award suspension lastUpdatedBy lastUpdatedOn : string)
    : Tx unit :=
  let* _ := onlyPolice in
  let* exists_ := PersonnelExists officerID in
  if negb exists_ then throw (OfficerDoesNotExist officerID)
  else
    let personnel := {|
      OfficerID := officerID;
      Name := name;
      Rank := rank;
      DOB := dob;
      Posting := posting;
      BadgeNumber := badgeNumber;
      EmploymentStatus := employmentStatus;
      DateOfJoining := dateOfJoining;
      Award := award;
      Suspension := suspension;
      LastUpdatedBy := lastUpdatedBy;
      LastUpdatedOn := lastUpdatedOn |} in
    let* pJSON := lift (Marshal PolicePersonnel_json personnel) in
    PutState officerID pJSON.

Definition DeletePolicePersonnel (officerID : string) : Tx unit :=
  let* _ := onlyPolice in
  let* exists_ := PersonnelExists officerID in
  if negb exists_ then throw (OfficerDoesNotExist officerID)
  else DelState officerID.

(** The loop [for resultsIterator.HasNext()] of [GetAllPersonnel]. *)
Fixpoint collect (resultsIterator : list (string * bytes))
    (personnelList : list PolicePersonnel) : Tx (list PolicePersonnel) :=
  match resultsIterator with
  | [] => ret personnelList
  | kv :: rest =>
      let* queryResponse := Next kv in
      let* personnel :=
        lift (Unmarshal PolicePersonnel_json queryResponse.2) in
      collect rest (personnelList ++ [personnel])
  end.

Definition GetAllPersonnel : Tx (list PolicePersonnel) :=
  let* resultsIterator := GetStateByRange "" "" in
  defer Close (collect resultsIterator []).

End PolicemanRecord.

(** ** fir-record/chaincode-go/smartcontract.go *)

Module FIRRecord.

Record FIR : Type := {
  Accused : string;
  CrimeType : string;
  Description : string;
  FiledBy : string;
  FIRID : string;
  Status : string;
  Timestamp : string;
}.

(** Assignment to one field. *)
Definition set_Accused (v : string) (fir : FIR) :=
  Build_FIR v (CrimeType fir) (Description fir) (FiledBy fir) (FIRID fir)
    (Status fir) (Timestamp fir).
Definition set_CrimeType (v : string) (fir : FIR) :=
  Build_FIR (Accused fir) v (Description fir) (FiledBy fir) (FIRID fir)
    (Status fir) (Timestamp fir).
Definition set_Description (v : string) (fir : FIR) :=
  Build_FIR (Accused fir) (CrimeType fir) v (FiledBy fir) (FIRID fir)
    (Status fir) (Timestamp fir).
Definition set_FiledBy (v : string) (fir : FIR) :=
  Build_FIR (Accused fir) (CrimeType fir) (Description fir) v (FIRID fir)
    (Status fir) (Timestamp fir).
Definition set_FIRID (v : string) (fir : FIR) :=
  Build_FIR (Accused fir) (CrimeType fir) (Description fir) (FiledBy fir) v
    (Status fir) (Timestamp fir).
Definition set_Status (v : string) (fir : FIR) :=
  Build_FIR (Accused fir) (CrimeType fir) (Description fir) (FiledBy fir)
    (FIRID fir) v (Timestamp fir).
Definition set_Timestamp (v : string) (fir : FIR) :=
  Build_FIR (Accused fir) (CrimeType fir) (Description fir) (FiledBy fir)
    (FIRID fir) (Status fir) v.

(** The struct with its json tags. *)
Definition FIR_json : Struct FIR := {|
  typeName := "FIR";
  zero := Build_FIR "" "" "" "" "" "" "";
  fields := [
    {| tag := "Accused"; get := Accused; set := set_Accused |};
    {| tag := "CrimeType"; get := CrimeType; set := set_CrimeType |};
    {| tag := "Description"; get := Description; set := set_Description |};
    {| tag := "FiledBy"; get := FiledBy; set := set_FiledBy |};
    {| tag := "FIRID"; get := FIRID; set := set_FIRID |};
    {| tag := "Status"; get := Status; set := set_Status |};
    {| tag := "Timestamp"; get := Timestamp; set := set_Timestamp |}
  ];
|}.

Definition getMSPID : Tx string := fun ctx => (MSPID ctx, ctx).

Definition onlyPolice : Tx unit :=
  let* mspid := wrapping UnableToGetMSPID getMSPID in
  if negb (String.eqb mspid "Org1MSP") then throw AccessDenied
  else ret tt.

(** The loop [for _, fir := range firs] of [InitLedger]. *)
Fixpoint putAll (firs : list FIR) : Tx unit :=
  match firs with
  | [] => ret tt
  | fir :: rest =>
      let* firJSON := lift (Marshal FIR_json fir) in
      let* _ := wrapping FailedToPut (PutState (FIRID fir) firJSON) in
      putAll rest
  end.

Definition InitLedger : Tx unit :=
  let firs := [
    {| FIRID := "FIR1"; FiledBy := "OfficerA"; Accused := "John Doe";
       CrimeType := "Theft"; Description := "Stolen bike";
       Status := "Open"; Timestamp := "2024-01-01T10:00:00Z" |};
    {| FIRID := "FIR2"; FiledBy := "OfficerB"; Accused := "Jane Smith";
       CrimeType := "Assault"; Description := "Physical altercation";
       Status := "Investigation"; Timestamp := "2024-01-02T14:30:00Z" |}
  ] in
  putAll firs.

Definition FIRExists (firID : string) : Tx bool :=
  let* firJSON := wrapping FailedToRead (GetState firID) in
  ret (bool_decide (firJSON <> None)).

Definition FileFIR
    (firID filedBy accused crimeType description status timestamp : string)
    : Tx unit :=
  let* _ := onlyPolice in
  let* exists_ := FIRExists firID in
  if exists_ then throw (FIRAlreadyExists firID)
  else
    let fir := {|
      FIRID := firID;
      FiledBy := filedBy;
      Accused := accused;
      CrimeType := crimeType;
      Description := description;
      Status := status;
      Timestamp := timestamp |} in
    let* firJSON := lift (Marshal FIR_json fir) in
    PutState firID firJSON.

Definition ReadFIR (firID : string) : Tx FIR :=
  let* firJSON := wrapping FailedToRead (GetState firID) in
  match firJSON with
  | None => throw (FIRDoesNotExist firID)
  | Some firJSON =>
      let* fir := lift (Unmarshal FIR_json firJSON) in
      ret fir
  end.

Definition UpdateFIR (firID status : string) : Tx unit :=
  let* _ := onlyPolice in
  let* fir := ReadFIR firID in
  let fir := set_Status status fir in
  let* updatedJSON := lift (Marshal FIR_json fir) in
  PutState firID updatedJSON.

Definition DeleteFIR (firID : string) : Tx unit :=
  let* _ := onlyPolice in
  let* exists_ := FIRExists firID in
  if negb exists_ then throw (FIRDoesNotExist firID)
  else DelState firID.

(** The loop [for resultsIterator.HasNext()] of [GetAllFIRs]. *)
Fixpoint collect (resultsIterator : list (string * bytes))
    (firs : list FIR) : Tx (list FIR) :=
  match resultsIterator with
  | [] => ret firs
  | kv :: rest =>
      let* queryResponse := Next kv in
      let* fir := lift (Unmarshal FIR_json queryResponse.2) in
      collect rest (firs ++ [fir])
  end.

Definition GetAllFIRs : Tx (list FIR) :=
  let* resultsIterator := GetStateByRange "" "" in
  defer Close (collect resultsIterator []).

End FIRRecord.

(** ** The entry points of the two contracts *)

Inductive Invocation : Type :=
| seedPersonnel
| createPersonnel (p : PolicemanRecord.PolicePersonnel)
| readPersonnel (officerID : string)
| updatePersonnel (p : PolicemanRecord.PolicePersonnel)
| deletePersonnel (officerID : string)
| personnelExists (officerID : string)
| listAllPersonnel
| seedCases
| fileCase (fir : FIRRecord.FIR)
| readCase (firID : string)
| updateCaseStatus (firID status : string)
| deleteCase (firID : string)
| caseExists (firID : string)
| listAllCases.

(** What an invocation returns to the caller. *)
Inductive Response : Type :=
| Nothing
| Boolean (b : bool)
| Personnel (p : PolicemanRecord.PolicePersonnel)
| Case (fir : FIRRecord.FIR)
| PersonnelList (l : list PolicemanRecord.PolicePersonnel)
| CaseList (l : list FIRRecord.FIR).

Definition answering {A} (f : A -> Response) (m : Tx A) : Tx Response :=
  let* a := m in ret (f a).

(** [create p]: the call of [CreatePolicePersonnel] with the twelve fields
    of [p] as its arguments; likewise [update] and [file]. *)
Definition create (p : PolicemanRecord.PolicePersonnel) : Tx unit :=
  let 'PolicemanRecord.Build_PolicePersonnel officerID name rank dob posting
        badgeNumber employmentStatus dateOfJoining award suspension
        lastUpdatedBy lastUpdatedOn := p in
  PolicemanRecord.CreatePolicePersonnel officerID name rank dob posting
    badgeNumber employmentStatus dateOfJoining award suspension
    lastUpdatedBy lastUpdatedOn.

Definition update (p : PolicemanRecord.PolicePersonnel) : Tx unit :=
  let 'PolicemanRecord.Build_PolicePersonnel officerID name rank dob posting
        badgeNumber employmentStatus dateOfJoining award suspension
        lastUpdatedBy lastUpdatedOn := p in
  PolicemanRecord.UpdatePolicePersonnel officerID name rank dob posting
    badgeNumber employmentStatus dateOfJoining award suspension
    lastUpdatedBy lastUpdatedOn.

Definition file (fir : FIRRecord.FIR) : Tx unit :=
  let 'FIRRecord.Build_FIR accused crimeType description filedBy firID
        status timestamp := fir in
  FIRRecord.FileFIR firID filedBy accused crimeType description status
    timestamp.

Definition invoke (i : Invocation) : Tx Response :=
  match i with
  | seedPersonnel => answering (fun _ => Nothing) PolicemanRecord.InitLedger
  | createPersonnel p => answering (fun _ => Nothing) (create p)
  | readPersonnel officerID =>
      answering Personnel (PolicemanRecord.ReadPolicePersonnel officerID)
  | updatePersonnel p => answering (fun _ => Nothing) (update p)
  | deletePersonnel officerID =>
      answering (fun _ => Nothing)
        (PolicemanRecord.DeletePolicePersonnel officerID)
  | personnelExists officerID =>
      answering Boolean (PolicemanRecord.PersonnelExists officerID)
  | listAllPersonnel => answering PersonnelList PolicemanRecord.GetAllPersonnel
  | seedCases => answering (fun _ => Nothing) FIRRecord.InitLedger
  | fileCase fir => answering (fun _ => Nothing) (file fir)
  | readCase firID => answering Case (FIRRecord.ReadFIR firID)
  | updateCaseStatus firID status =>
      answering (fun _ => Nothing) (FIRRecord.UpdateFIR firID status)
  | deleteCase firID =>
      answering (fun _ => Nothing) (FIRRecord.DeleteFIR firID)
  | caseExists firID => answering Boolean (FIRRecord.FIRExists firID)
  | listAllCases => answering CaseList FIRRecord.GetAllFIRs
  end.

(** The operations the specification lists as guarded by the gate: create,
    update and delete of both kinds, read of personnel records, and seeding
    of personnel records. *)
Definition spec_gated (i : Invocation) : bool :=
  match i with
  | seedPersonnel | createPersonnel _ | readPersonnel _ | updatePersonnel _
  | deletePersonnel _ | fileCase _ | updateCaseStatus _ _ | deleteCase _ =>
      true
  | personnelExists _ | listAllPersonnel | seedCases | readCase _
  | caseExists _ | listAllCases => false
  end.

(** The caller of a context replaced by another. *)
Definition as_caller (mspid : result string) (ctx : TransactionContext)
    : TransactionContext :=
  {| MSPID := mspid; stub := stub ctx |}.


(** The contract an entry point belongs to. *)
Inductive Chaincode : Type :=
| PolicemanRecordCC
| FIRRecordCC.

Definition chaincode_of (i : Invocation) : Chaincode :=
  match i with
  | seedPersonnel | createPersonnel _ | readPersonnel _ | updatePersonnel _
  | deletePersonnel _ | personnelExists _ | listAllPersonnel =>
      PolicemanRecordCC
  | seedCases | fileCase _ | readCase _ | updateCaseStatus _ _
  | deleteCase _ | caseExists _ | listAllCases => FIRRecordCC
  end.

(** The world states reached from the empty ledger by invocations of the
    entry points, by any callers and whatever calls the platform fails;
    [allowed i w] says which invocations are made in which states. *)
Inductive reachable (allowed : Invocation -> gmap string bytes -> Prop)
    : gmap string bytes -> Prop :=
| reachable_empty : reachable allowed ∅
| reachable_step w i mspid fault :
    reachable allowed w ->
    allowed i w ->
    reachable allowed (Submit (invoke i) mspid fault w).2.


(** A ledger of its own for the contract [cc]: the invocations of its entry
    points. *)
Definition on_its_own_ledger (cc : Chaincode) (i : Invocation)
    (w : gmap string bytes) : Prop :=
  chaincode_of i = cc.

(** [v] is a personnel record whose OfficerID is [k]; [v] is a case record
    whose FIRID is [k]. *)
Definition is_personnel (k : string) (v : bytes) : Prop :=
  exists p, v = encode PolicemanRecord.PolicePersonnel_json p /\
            Unmarshal PolicemanRecord.PolicePersonnel_json v = Ok p /\
            PolicemanRecord.OfficerID p = k.

Definition is_case (k : string) (v : bytes) : Prop :=
  exists fir, v = encode FIRRecord.FIR_json fir /\
              Unmarshal FIRRecord.FIR_json v = Ok fir /\
              FIRRecord.FIRID fir = k.


(** Every stored value is a record that carries the key it is stored
    under: a record of the contract, on the ledger of one contract, and a
    personnel record or a case record on a ledger of both. *)
Definition keyed_by (ok : string -> bytes -> Prop) (w : gmap string bytes)
    : Prop :=
  forall k v, w !! k = Some v -> ok k v.

Definition record_of (cc : Chaincode) : string -> bytes -> Prop :=
  match cc with
  | PolicemanRecordCC => is_personnel
  | FIRRecordCC => is_case
  end.


(** A function that never looks at the caller: with another caller in the
    context it returns the same and makes the same calls. *)
Definition caller_blind {A} (tx : Tx A) : Prop :=
  forall mspid ctx,
    tx (as_caller mspid ctx) = ((tx ctx).1, as_caller mspid (tx ctx).2).

(** The calls that change the world state when they commit. *)
Definition is_write (c : StubCall) : bool :=
  match c with
  | PutStateCall _ _ | DelStateCall _ => true
  | _ => false
  end.

(** A function that leaves the ledger as it is: its calls, committed, change
    nothing. *)
Definition reads_only {A} (tx : Tx A) : Prop :=
  forall ctx,
    state (stub (tx ctx).2) = state (stub ctx) /\
    fault (stub (tx ctx).2) = fault (stub ctx) /\
    commit (stub (tx ctx).2) = commit (stub ctx).

(** The records of the two scenarios of the specification. *)
Definition POL12346 : PolicemanRecord.PolicePersonnel := {|
  PolicemanRecord.OfficerID := "POL12346";
  PolicemanRecord.Name := "Raj Kumar";
  PolicemanRecord.Rank := "Sub-Inspector";
  PolicemanRecord.DOB := "1990-01-25";
  PolicemanRecord.Posting := "Crime Branch, Delhi";
  PolicemanRecord.BadgeNumber := "DEL-7890";
  PolicemanRecord.EmploymentStatus := "Active";
  PolicemanRecord.DateOfJoining := "2015-07-10";
  PolicemanRecord.Award := "Meritorious Service Medal";
  PolicemanRecord.Suspension := "";
  PolicemanRecord.LastUpdatedBy := "Org1";
  PolicemanRecord.LastUpdatedOn := "2025-01-01" |}.

Definition FIR3 : FIRRecord.FIR := {|
  FIRRecord.FIRID := "FIR3";
  FIRRecord.FiledBy := "OfficerC";
  FIRRecord.Accused := "Robbery";
  FIRRecord.CrimeType := "Bank robbery at downtown";
  FIRRecord.Description := "Alex Murphy";
  FIRRecord.Status := "Open";
  FIRRecord.Timestamp := "2024-01-03T12:00:00Z" |}.


(** ** Further notions

    The sample records of the two [InitLedger], the keys an entry point
    may write, and platforms that fail some of the calls. *)

(** The records [InitLedger] writes. *)
Definition POL12345 : PolicemanRecord.PolicePersonnel := {|
  PolicemanRecord.OfficerID := "POL12345";
  PolicemanRecord.Name := "Inspector Anjali Mehta";
  PolicemanRecord.Rank := "Inspector";
  PolicemanRecord.DOB := "1985-08-15";
  PolicemanRecord.Posting := "Cyber Crime Unit, Mumbai";
  PolicemanRecord.BadgeNumber := "MUM-4521";
  PolicemanRecord.EmploymentStatus := "Active";
  PolicemanRecord.DateOfJoining := "2010-06-12";
  PolicemanRecord.Award := "Gallantry Award 2018";
  PolicemanRecord.Suspension := "";
  PolicemanRecord.LastUpdatedBy := "Org1";
  PolicemanRecord.LastUpdatedOn := "2025-04-06" |}.

Definition FIR1 : FIRRecord.FIR := {|
  FIRRecord.FIRID := "FIR1";
  FIRRecord.FiledBy := "OfficerA";
  FIRRecord.Accused := "John Doe";
  FIRRecord.CrimeType := "Theft";
  FIRRecord.Description := "Stolen bike";
  FIRRecord.Status := "Open";
  FIRRecord.Timestamp := "2024-01-01T10:00:00Z" |}.

Definition FIR2 : FIRRecord.FIR := {|
  FIRRecord.FIRID := "FIR2";
  FIRRecord.FiledBy := "OfficerB";
  FIRRecord.Accused := "Jane Smith";
  FIRRecord.CrimeType := "Assault";
  FIRRecord.Description := "Physical altercation";
  FIRRecord.Status := "Investigation";
  FIRRecord.Timestamp := "2024-01-02T14:30:00Z" |}.

(** The keys an invocation may write or delete. *)
Definition touched (i : Invocation) : list string :=
  match i with
  | seedPersonnel => ["POL12345"]
  | createPersonnel p | updatePersonnel p => [PolicemanRecord.OfficerID p]
  | deletePersonnel officerID => [officerID]
  | seedCases => ["FIR1"; "FIR2"]
  | fileCase fir => [FIRRecord.FIRID fir]
  | updateCaseStatus firID _ | deleteCase firID => [firID]
  | readPersonnel _ | personnelExists _ | listAllPersonnel
  | readCase _ | caseExists _ | listAllCases => []
  end.

(** The key whose [GetState] is the first call an invocation makes to the
    stub, for those that begin with one. *)
Definition first_read (i : Invocation) : option string :=
  match i with
  | createPersonnel p | updatePersonnel p => Some (PolicemanRecord.OfficerID p)
  | readPersonnel officerID | deletePersonnel officerID
  | personnelExists officerID => Some officerID
  | fileCase fir => Some (FIRRecord.FIRID fir)
  | readCase firID | updateCaseStatus firID _ | deleteCase firID
  | caseExists firID => Some firID
  | seedPersonnel | listAllPersonnel | seedCases | listAllCases => None
  end.

(** A platform that fails the write of one key, and no other call. *)
Definition failing_put (key : string) : StubCall -> option string :=
  fun c =>
    match c with
    | PutStateCall key' _ =>
        if String.eqb key' key then Some "ledger unavailable" else None
    | _ => None
    end.

(** The classes of error each entry point can return. *)
Definition may_fail_with (i : Invocation) (kd : ErrorKind) : bool :=
  match i, kd with
  | (seedPersonnel | createPersonnel _ | readPersonnel _ | updatePersonnel _
     | deletePersonnel _ | fileCase _ | updateCaseStatus _ _ | deleteCase _),
    AuthorizationDenied => true
  | (readPersonnel _ | updatePersonnel _ | deletePersonnel _ | readCase _
     | updateCaseStatus _ _ | deleteCase _), NotFound => true
  | (createPersonnel _ | fileCase _), AlreadyExists => true
  | (readPersonnel _ | listAllPersonnel | readCase _ | updateCaseStatus _ _
     | listAllCases), SerializationError => true
  | _, StorageError => true
  | _, _ => false
  end.

(** A platform that fails every call. *)
Definition unavailable : StubCall -> option string :=
  fun _ => Some "ledger unavailable".

(** A platform that serves every read and refuses every write and delete
    with [msg]. *)
Definition read_only_ledger (msg : string) : StubCall -> option string :=
  fun c =>
    match c with
    | PutStateCall _ _ | DelStateCall _ => Some msg
    | _ => None
    end.

(** * Properties *)

(** ** The monad and the stub *)

Section TxFacts.
Context {A B : Type}.

Lemma bind_Err (m : Tx A) (k : A -> Tx B) ctx e ctx' :
  m ctx = (Err e, ctx') -> bind m k ctx = (Err e, ctx').
Proof. unfold bind. intros ->. reflexivity. Qed.

Lemma answering_Err (f : A -> Response) (m : Tx A) ctx e ctx' :
  m ctx = (Err e, ctx') -> answering f m ctx = (Err e, ctx').
Proof. intros H. unfold answering, bind. rewrite H. reflexivity. Qed.
End TxFacts.

(** ** Errors *)

Example Error_of_a_failed_read :
  Error (FailedToRead (External "ledger unavailable")) =
  "failed to read from world state: ledger unavailable".
Proof. reflexivity. Qed.

Example Error_of_a_second_create :
  Error (OfficerAlreadyExists "POL12346") =
  "the officer POL12346 already exists".
Proof. reflexivity. Qed.

(** ** encoding/json: what is written is what is read *)

(** Keys are matched up to case, and members of no field are skipped. *)
Example Unmarshal_matches_up_to_case :
  Unmarshal FIRRecord.FIR_json
    (Encoded (JObject [("status", JString "Open"); ("rank", JString "DSP");
                       ("firid", JString "FIR9")])) =
  Ok (FIRRecord.set_FIRID "FIR9"
        (FIRRecord.set_Status "Open" (zero FIRRecord.FIR_json))).
Proof. reflexivity. Qed.

(** A member that is not a string is a type error; bytes that are no JSON
    text are a syntax error. *)
Example Unmarshal_type_error :
  Unmarshal FIRRecord.FIR_json (Encoded (JObject [("Status", JNumber "1")])) =
  Err (JSONError ("json: cannot unmarshal number into Go struct field " ++
                  "FIR.Status of type string")).
Proof. reflexivity. Qed.

(** A personnel record has no member of a name of [FIR]: decoded as a case
    record it gives the record with every field empty, and no error. *)
Lemma PolicePersonnel_decoded_as_FIR p :
  Unmarshal FIRRecord.FIR_json
    (encode PolicemanRecord.PolicePersonnel_json p) =
  Ok (zero FIRRecord.FIR_json).
Proof. destruct p. reflexivity. Qed.

Lemma PolicePersonnel_roundtrip p :
  Unmarshal PolicemanRecord.PolicePersonnel_json
    (encode PolicemanRecord.PolicePersonnel_json p) = Ok p.
Proof. destruct p. reflexivity. Qed.

Lemma FIR_roundtrip fir :
  Unmarshal FIRRecord.FIR_json (encode FIRRecord.FIR_json fir) = Ok fir.
Proof. destruct fir. reflexivity. Qed.

Lemma decodeMembers_error {T} (S : Struct T) members x e :
  decodeMembers S members x = Err e -> kind_of e = SerializationError.
Proof.
  revert x. induction members as [|[key v] members IH]; intros x; simpl.
  - discriminate.
  - destruct (lookupField S key) as [f|]; [|apply IH].
    destruct v; try apply IH; intros [= <-]; reflexivity.
Qed.

Lemma Unmarshal_error {T} (S : Struct T) data e :
  Unmarshal S data = Err e -> kind_of e = SerializationError.
Proof.
  unfold Unmarshal, Unmarshal_into.
  destruct data as [[]|]; try (intros [= <-]; reflexivity); try discriminate.
  apply decodeMembers_error.
Qed.

(** ** The authorization gate *)

Lemma Policeman_onlyPolice_admits ctx :
  MSPID ctx = Ok "Org1MSP" -> PolicemanRecord.onlyPolice ctx = (Ok tt, ctx).
Proof.
  unfold PolicemanRecord.onlyPolice, PolicemanRecord.getMSPID, bind, wrapping.
  intros ->. reflexivity.
Qed.

Lemma Policeman_onlyPolice_denies ctx mspid :
  MSPID ctx = Ok mspid -> mspid <> "Org1MSP" ->
  PolicemanRecord.onlyPolice ctx = (Err AccessDenied, ctx).
Proof.
  unfold PolicemanRecord.onlyPolice, PolicemanRecord.getMSPID, bind, wrapping.
  intros -> Hne. destruct (String.eqb_spec mspid "Org1MSP"); [contradiction|].
  reflexivity.
Qed.

Lemma FIR_onlyPolice_admits ctx :
  MSPID ctx = Ok "Org1MSP" -> FIRRecord.onlyPolice ctx = (Ok tt, ctx).
Proof.
  unfold FIRRecord.onlyPolice, FIRRecord.getMSPID, bind, wrapping.
  intros ->. reflexivity.
Qed.

Lemma FIR_onlyPolice_denies ctx mspid :
  MSPID ctx = Ok mspid -> mspid <> "Org1MSP" ->
  FIRRecord.onlyPolice ctx = (Err AccessDenied, ctx).
Proof.
  unfold FIRRecord.onlyPolice, FIRRecord.getMSPID, bind, wrapping.
  intros -> Hne. destruct (String.eqb_spec mspid "Org1MSP"); [contradiction|].
  reflexivity.
Qed.

(** Every function of the two contracts but the two loops, unfolded down to
    the calls of the stub. *)
Ltac unfold_tx :=
  unfold invoke, answering, create, update, file,
    PolicemanRecord.InitLedger, PolicemanRecord.CreatePolicePersonnel,
    PolicemanRecord.ReadPolicePersonnel, PolicemanRecord.UpdatePolicePersonnel,
    PolicemanRecord.DeletePolicePersonnel, PolicemanRecord.PersonnelExists,
    PolicemanRecord.GetAllPersonnel, PolicemanRecord.putAll,
    FIRRecord.InitLedger, FIRRecord.FileFIR, FIRRecord.UpdateFIR,
    FIRRecord.ReadFIR, FIRRecord.DeleteFIR, FIRRecord.FIRExists,
    FIRRecord.GetAllFIRs, FIRRecord.putAll,
    PolicemanRecord.onlyPolice, PolicemanRecord.getMSPID,
    FIRRecord.onlyPolice, FIRRecord.getMSPID,
    GetState, PutState, DelState, call, Marshal,
    bind, wrapping, lift, ret, throw in *.

Lemma gated_denies i ctx mspid :
  spec_gated i = true -> MSPID ctx = Ok mspid -> mspid <> "Org1MSP" ->
  invoke i ctx = (Err AccessDenied, ctx).
Proof.
  intros Hg Hid Hne.
  destruct i as [|p|?|p|?|?| | |fir|?|? ?|?|?|]; try discriminate Hg;
    try destruct p; try destruct fir; simpl;
    apply answering_Err, bind_Err;
    eauto using Policeman_onlyPolice_denies, FIR_onlyPolice_denies.
Qed.

Lemma gated_admits i ctx :
  spec_gated i = true -> MSPID ctx = Ok "Org1MSP" ->
  ~ fails_with (invoke i ctx).1 AuthorizationDenied.
Proof.
  intros Hg Hid.
  destruct i as [|p|?|p|?|?| | |fir|?|? ?|?|?|]; try discriminate Hg;
    try destruct p; try destruct fir; unfold_tx; rewrite Hid; simpl.
  all: repeat case_match; simplify_eq/=; try tauto; try discriminate.
  all: match goal with
       | H : Unmarshal _ _ = Err _ |- _ =>
           apply Unmarshal_error in H; congruence
       end.
Qed.

Lemma gated_admitted_reaches_the_stub i ctx :
  spec_gated i = true -> MSPID ctx = Ok "Org1MSP" ->
  length (calls (stub ctx)) < length (calls (stub (invoke i ctx).2)).
Proof.
  intros Hg Hid.
  destruct i as [|p|?|p|?|?| | |fir|?|? ?|?|?|]; try discriminate Hg;
    try destruct p; try destruct fir; unfold_tx; rewrite Hid; simpl.
  all: repeat case_match; simplify_eq/=; rewrite ?length_app; simpl; lia.
Qed.

Lemma Submit_Err {A} (tx : Tx A) mspid fault w e ctx' :
  tx (begin mspid fault w) = (Err e, ctx') ->
  Submit tx mspid fault w = (Err e, w).
Proof. unfold Submit. intros ->. reflexivity. Qed.

(** C1.  On every gated operation and in every transaction context: a caller
    of the organization "Org1MSP" passes the gate ([onlyPolice] returns no
    error, whatever the operation returns is no authorization error, and
    the operation goes on to call the stub); a caller of any other
    organization gets the access-denied error, of the class
    AuthorizationDenied, with the context as it was, so that no call to the
    stub was made, and the world state is left as it was. *)
Theorem authorization_gate (i : Invocation) (ctx : TransactionContext) :
  spec_gated i = true ->
  (MSPID ctx = Ok "Org1MSP" ->
     PolicemanRecord.onlyPolice ctx = (Ok tt, ctx) /\
     FIRRecord.onlyPolice ctx = (Ok tt, ctx) /\
     ~ fails_with (invoke i ctx).1 AuthorizationDenied /\
     length (calls (stub ctx)) < length (calls (stub (invoke i ctx).2))) /\
  (forall mspid, MSPID ctx = Ok mspid -> mspid <> "Org1MSP" ->
     invoke i ctx = (Err AccessDenied, ctx) /\
     fails_with (invoke i ctx).1 AuthorizationDenied /\
     forall fault w,
       Submit (invoke i) (Ok mspid) fault w = (Err AccessDenied, w)).
Proof.
  intros Hg. split.
  - intros Hid. auto using Policeman_onlyPolice_admits, FIR_onlyPolice_admits,
      gated_admits, gated_admitted_reaches_the_stub.
  - intros mspid Hid Hne.
    pose proof (gated_denies i ctx mspid Hg Hid Hne) as Hdenied.
    rewrite Hdenied. repeat split.
    intros fault w. eapply Submit_Err.
    apply (gated_denies i (begin (Ok mspid) fault w) mspid Hg eq_refl Hne).
Qed.

(** ** Which operations the gate guards *)

Section CallerBlind.
Context {A B : Type}.

Lemma ret_blind (a : A) : caller_blind (ret a).
Proof. intros mspid ctx. reflexivity. Qed.

Lemma throw_blind e : caller_blind (@throw A e).
Proof. intros mspid ctx. reflexivity. Qed.

Lemma lift_blind (r : result A) : caller_blind (lift r).
Proof. intros mspid ctx. reflexivity. Qed.

Lemma call_blind c (answer : ChaincodeStub -> A) :
  caller_blind (call c answer).
Proof. intros mspid ctx. unfold call. simpl. case_match; reflexivity. Qed.

Lemma bind_blind (m : Tx A) (k : A -> Tx B) :
  caller_blind m -> (forall a, caller_blind (k a)) ->
  caller_blind (bind m k).
Proof.
  intros Hm Hk mspid ctx. unfold bind. rewrite Hm.
  destruct (m ctx) as [[a|e] ctx']; simpl; [apply Hk | reflexivity].
Qed.

Lemma wrapping_blind wrap (m : Tx A) :
  caller_blind m -> caller_blind (wrapping wrap m).
Proof.
  intros Hm mspid ctx. unfold wrapping. rewrite Hm.
  destruct (m ctx) as [[a|e] ctx']; reflexivity.
Qed.

Lemma defer_blind (d : Tx unit) (m : Tx A) :
  caller_blind d -> caller_blind m -> caller_blind (defer d m).
Proof.
  intros Hd Hm mspid ctx. unfold defer. rewrite Hm.
  destruct (m ctx) as [r ctx']; simpl. rewrite Hd. reflexivity.
Qed.
End CallerBlind.

Lemma Policeman_collect_blind it acc :
  caller_blind (PolicemanRecord.collect it acc).
Proof.
  revert acc. induction it as [|kv it IH]; intros acc; simpl.
  - apply ret_blind.
  - apply bind_blind; [apply call_blind|]. intros qr.
    apply bind_blind; [apply lift_blind|]. intros p. apply IH.
Qed.

Lemma FIR_collect_blind it acc : caller_blind (FIRRecord.collect it acc).
Proof.
  revert acc. induction it as [|kv it IH]; intros acc; simpl.
  - apply ret_blind.
  - apply bind_blind; [apply call_blind|]. intros qr.
    apply bind_blind; [apply lift_blind|]. intros fir. apply IH.
Qed.

Lemma ungated_blind i : spec_gated i = false -> caller_blind (invoke i).
Proof.
  destruct i; try discriminate; intros _; simpl; unfold answering.
  all: repeat first
    [ apply Policeman_collect_blind | apply FIR_collect_blind
    | apply ret_blind | apply throw_blind | apply lift_blind | apply call_blind
    | apply wrapping_blind | apply defer_blind
    | apply bind_blind; [|intros ?]
    | progress unfold PolicemanRecord.PersonnelExists,
        PolicemanRecord.GetAllPersonnel, FIRRecord.InitLedger,
        FIRRecord.ReadFIR, FIRRecord.FIRExists, FIRRecord.GetAllFIRs,
        FIRRecord.putAll, GetState, PutState, GetStateByRange, Close
    | case_match ].
Qed.

Lemma gated_of_denial i :
  (forall ctx mspid, MSPID ctx = Ok mspid -> mspid <> "Org1MSP" ->
     invoke i ctx = (Err AccessDenied, ctx)) ->
  spec_gated i = true.
Proof.
  intros H.
  specialize (H (begin (Ok "Org2MSP") healthy ∅) "Org2MSP" eq_refl).
  assert (Hne : "Org2MSP" <> "Org1MSP") by discriminate.
  specialize (H Hne).
  destruct i; try reflexivity; exfalso; unfold_tx; simpl in H;
    try rewrite lookup_empty in H; simpl in H; try discriminate H.
  all: vm_compute in H; discriminate H.
Qed.

(** C2.  The operations the gate guards are exactly those of [spec_gated]:
    create, update and delete of both kinds, read of personnel records and
    seeding of personnel records.  Each of these denies, with the context
    untouched, every caller whose organization is not "Org1MSP", and no
    other operation does; read, existence check and enumeration of case
    records, seeding of case records, and existence check and enumeration of
    personnel records never look at the caller. *)
Theorem gate_coverage (i : Invocation) :
  (spec_gated i = true <->
     forall ctx mspid, MSPID ctx = Ok mspid -> mspid <> "Org1MSP" ->
       invoke i ctx = (Err AccessDenied, ctx)) /\
  (spec_gated i = false -> caller_blind (invoke i)).
Proof.
  split; [split|].
  - intros Hg ctx mspid. apply gated_denies, Hg.
  - apply gated_of_denial.
  - apply ungated_blind.
Qed.

(** ** The operations as decision trees *)

Arguments encode : simpl never.
Arguments Unmarshal : simpl never.
Arguments rangeOf : simpl never.

Ltac tx_cases :=
  unfold_tx; simpl;
  repeat (match goal with
          | |- context [match ?x with _ => _ end] => destruct x eqn:?
          | |- context [if ?x then _ else _] => destruct x eqn:?
          end; simplify_eq/=);
  try reflexivity; try congruence.

Section Policeman.
Import PolicemanRecord.

Lemma PersonnelExists_spec k ctx :
  PersonnelExists k ctx =
  match fault (stub ctx) (GetStateCall k) with
  | Some msg =>
      (Err (FailedToRead (External msg)), logged (GetStateCall k) ctx)
  | None =>
      (Ok (bool_decide (is_Some (state (stub ctx) !! k))),
       logged (GetStateCall k) ctx)
  end.
Proof. tx_cases. destruct (_ !! _); reflexivity. Qed.

Lemma create_spec p ctx :
  let k := OfficerID p in
  let v := encode PolicePersonnel_json p in
  create p ctx =
  match MSPID ctx with
  | Err e => (Err (UnableToGetMSPID e), ctx)
  | Ok mspid =>
      if String.eqb mspid "Org1MSP" then
        match fault (stub ctx) (GetStateCall k) with
        | Some msg =>
            (Err (FailedToRead (External msg)), logged (GetStateCall k) ctx)
        | None =>
            match state (stub ctx) !! k with
            | Some _ =>
                (Err (OfficerAlreadyExists k), logged (GetStateCall k) ctx)
            | None =>
                let ctx' := logged (PutStateCall k v)
                              (logged (GetStateCall k) ctx) in
                match fault (stub ctx) (PutStateCall k v) with
                | Some msg => (Err (External msg), ctx')
                | None => (Ok tt, ctx')
                end
            end
        end
      else (Err AccessDenied, ctx)
  end.
Proof. destruct p. tx_cases. Qed.

Lemma ReadPolicePersonnel_spec k ctx :
  ReadPolicePersonnel k ctx =
  match MSPID ctx with
  | Err e => (Err (UnableToGetMSPID e), ctx)
  | Ok mspid =>
      if String.eqb mspid "Org1MSP" then
        match fault (stub ctx) (GetStateCall k) with
        | Some msg =>
            (Err (FailedToRead (External msg)), logged (GetStateCall k) ctx)
        | None =>
            match state (stub ctx) !! k with
            | None =>
                (Err (OfficerDoesNotExist k), logged (GetStateCall k) ctx)
            | Some pJSON =>
                (Unmarshal PolicePersonnel_json pJSON,
                 logged (GetStateCall k) ctx)
            end
        end
      else (Err AccessDenied, ctx)
  end.
Proof. tx_cases. Qed.

Lemma update_spec p ctx :
  let k := OfficerID p in
  let v := encode PolicePersonnel_json p in
  update p ctx =
  match MSPID ctx with
  | Err e => (Err (UnableToGetMSPID e), ctx)
  | Ok mspid =>
      if String.eqb mspid "Org1MSP" then
        match fault (stub ctx) (GetStateCall k) with
        | Some msg =>
            (Err (FailedToRead (External msg)), logged (GetStateCall k) ctx)
        | None =>
            match state (stub ctx) !! k with
            | None =>
                (Err (OfficerDoesNotExist k), logged (GetStateCall k) ctx)
            | Some _ =>
                let ctx' := logged (PutStateCall k v)
                              (logged (GetStateCall k) ctx) in
                match fault (stub ctx) (PutStateCall k v) with
                | Some msg => (Err (External msg), ctx')
                | None => (Ok tt, ctx')
                end
            end
        end
      else (Err AccessDenied, ctx)
  end.
Proof. destruct p. tx_cases. Qed.

Lemma DeletePolicePersonnel_spec k ctx :
  DeletePolicePersonnel k ctx =
  match MSPID ctx with
  | Err e => (Err (UnableToGetMSPID e), ctx)
  | Ok mspid =>
      if String.eqb mspid "Org1MSP" then
        match fault (stub ctx) (GetStateCall k) with
        | Some msg =>
            (Err (FailedToRead (External msg)), logged (GetStateCall k) ctx)
        | None =>
            match state (stub ctx) !! k with
            | None =>
                (Err (OfficerDoesNotExist k), logged (GetStateCall k) ctx)
            | Some _ =>
                let ctx' := logged (DelStateCall k)
                              (logged (GetStateCall k) ctx) in
                match fault (stub ctx) (DelStateCall k) with
                | Some msg => (Err (External msg), ctx')
                | None => (Ok tt, ctx')
                end
            end
        end
      else (Err AccessDenied, ctx)
  end.
Proof. tx_cases. Qed.
End Policeman.

Section FIRs.
Import FIRRecord.

Lemma FIRExists_spec k ctx :
  FIRExists k ctx =
  match fault (stub ctx) (GetStateCall k) with
  | Some msg =>
      (Err (FailedToRead (External msg)), logged (GetStateCall k) ctx)
  | None =>
      (Ok (bool_decide (is_Some (state (stub ctx) !! k))),
       logged (GetStateCall k) ctx)
  end.
Proof. tx_cases. destruct (_ !! _); reflexivity. Qed.

Lemma file_spec fir ctx :
  let k := FIRID fir in
  let v := encode FIR_json fir in
  file fir ctx =
  match MSPID ctx with
  | Err e => (Err (UnableToGetMSPID e), ctx)
  | Ok mspid =>
      if String.eqb mspid "Org1MSP" then
        match fault (stub ctx) (GetStateCall k) with
        | Some msg =>
            (Err (FailedToRead (External msg)), logged (GetStateCall k) ctx)
        | None =>
            match state (stub ctx) !! k with
            | Some _ =>
                (Err (FIRAlreadyExists k), logged (GetStateCall k) ctx)
            | None =>
                let ctx' := logged (PutStateCall k v)
                              (logged (GetStateCall k) ctx) in
                match fault (stub ctx) (PutStateCall k v) with
                | Some msg => (Err (External msg), ctx')
                | None => (Ok tt, ctx')
                end
            end
        end
      else (Err AccessDenied, ctx)
  end.
Proof. destruct fir. tx_cases. Qed.

Lemma ReadFIR_spec k ctx :
  ReadFIR k ctx =
  match fault (stub ctx) (GetStateCall k) with
  | Some msg =>
      (Err (FailedToRead (External msg)), logged (GetStateCall k) ctx)
  | None =>
      match state (stub ctx) !! k with
      | None => (Err (FIRDoesNotExist k), logged (GetStateCall k) ctx)
      | Some firJSON =>
          (Unmarshal FIR_json firJSON, logged (GetStateCall k) ctx)
      end
  end.
Proof. tx_cases. Qed.

Lemma UpdateFIR_spec k status ctx :
  UpdateFIR k status ctx =
  match MSPID ctx with
  | Err e => (Err (UnableToGetMSPID e), ctx)
  | Ok mspid =>
      if String.eqb mspid "Org1MSP" then
        match fault (stub ctx) (GetStateCall k) with
        | Some msg =>
            (Err (FailedToRead (External msg)), logged (GetStateCall k) ctx)
        | None =>
            match state (stub ctx) !! k with
            | None => (Err (FIRDoesNotExist k), logged (GetStateCall k) ctx)
            | Some firJSON =>
                match Unmarshal FIR_json firJSON with
                | Err e => (Err e, logged (GetStateCall k) ctx)
                | Ok fir =>
                    let v := encode FIR_json (set_Status status fir) in
                    let ctx' := logged (PutStateCall k v)
                                  (logged (GetStateCall k) ctx) in
                    match fault (stub ctx) (PutStateCall k v) with
                    | Some msg => (Err (External msg), ctx')
                    | None => (Ok tt, ctx')
                    end
                end
            end
        end
      else (Err AccessDenied, ctx)
  end.
Proof. tx_cases. Qed.

Lemma DeleteFIR_spec k ctx :
  DeleteFIR k ctx =
  match MSPID ctx with
  | Err e => (Err (UnableToGetMSPID e), ctx)
  | Ok mspid =>
      if String.eqb mspid "Org1MSP" then
        match fault (stub ctx) (GetStateCall k) with
        | Some msg =>
            (Err (FailedToRead (External msg)), logged (GetStateCall k) ctx)
        | None =>
            match state (stub ctx) !! k with
            | None => (Err (FIRDoesNotExist k), logged (GetStateCall k) ctx)
            | Some _ =>
                let ctx' := logged (DelStateCall k)
                              (logged (GetStateCall k) ctx) in
                match fault (stub ctx) (DelStateCall k) with
                | Some msg => (Err (External msg), ctx')
                | None => (Ok tt, ctx')
                end
            end
        end
      else (Err AccessDenied, ctx)
  end.
Proof. tx_cases. Qed.
End FIRs.

(** ** Committing *)

Lemma commit_logged c ctx :
  commit (stub (logged c ctx)) =
  apply_call (fault (stub ctx)) (commit (stub ctx)) c.
Proof. unfold commit, logged, record_call. simpl. apply foldl_snoc. Qed.

Lemma apply_call_read fault w key : apply_call fault w (GetStateCall key) = w.
Proof. unfold apply_call. destruct (fault _); reflexivity. Qed.

Lemma apply_call_put fault w key value :
  fault (PutStateCall key value) = None ->
  apply_call fault w (PutStateCall key value) = <[key := value]> w.
Proof. unfold apply_call. intros ->. reflexivity. Qed.

Lemma apply_call_del fault w key :
  fault (DelStateCall key) = None ->
  apply_call fault w (DelStateCall key) = delete key w.
Proof. unfold apply_call. intros ->. reflexivity. Qed.

Section CRUD.
Import PolicemanRecord FIRRecord.

Lemma create_fresh w p :
  w !! OfficerID p = None ->
  Submit (create p) (Ok "Org1MSP") healthy w =
    (Ok tt, <[OfficerID p := encode PolicePersonnel_json p]> w).
Proof.
  intros Habsent. unfold Submit. rewrite create_spec. simpl.
  rewrite Habsent. reflexivity.
Qed.

Lemma file_fresh w fir :
  w !! FIRID fir = None ->
  Submit (file fir) (Ok "Org1MSP") healthy w =
    (Ok tt, <[FIRID fir := encode FIR_json fir]> w).
Proof.
  intros Habsent. unfold Submit. rewrite file_spec. simpl.
  rewrite Habsent. reflexivity.
Qed.


Lemma create_succeeded p mspid fault w w' :
  Submit (create p) mspid fault w = (Ok tt, w') ->
  w' = <[OfficerID p := encode PolicePersonnel_json p]> w.
Proof.
  unfold Submit. rewrite create_spec. simpl.
  destruct mspid as [mspid|]; [|discriminate].
  destruct (String.eqb mspid "Org1MSP"); [|discriminate].
  destruct (fault (GetStateCall _)); [discriminate|].
  destruct (w !! _); [discriminate|]. simpl.
  destruct (fault (PutStateCall _ _)) eqn:Hput; [discriminate|].
  intros [= <-]. unfold commit. simpl.
  rewrite apply_call_read. apply apply_call_put, Hput.
Qed.

Lemma file_succeeded fir mspid fault w w' :
  Submit (file fir) mspid fault w = (Ok tt, w') ->
  w' = <[FIRID fir := encode FIR_json fir]> w.
Proof.
  unfold Submit. rewrite file_spec. simpl.
  destruct mspid as [mspid|]; [|discriminate].
  destruct (String.eqb mspid "Org1MSP"); [|discriminate].
  destruct (fault (GetStateCall _)); [discriminate|].
  destruct (w !! _); [discriminate|]. simpl.
  destruct (fault (PutStateCall _ _)) eqn:Hput; [discriminate|].
  intros [= <-]. unfold commit. simpl.
  rewrite apply_call_read. apply apply_call_put, Hput.
Qed.

(** C4.  After a create of key k that succeeded, a second create of k by an
    authorized caller, with any fields, returns the already-exists error
    (class AlreadyExists), and the world state still holds at k the value
    the first create stored; for [CreatePolicePersonnel] and for
    [FileFIR].  The read of k by the second create is assumed not to be
    failed by the platform. *)
Theorem second_create_fails (w w' : gmap string bytes)
    (fault fault' : StubCall -> option string)
    (p q : PolicePersonnel) (fir fir' : FIR) :
  (Submit (create p) (Ok "Org1MSP") fault w = (Ok tt, w') ->
   OfficerID q = OfficerID p ->
   fault' (GetStateCall (OfficerID p)) = None ->
     Submit (create q) (Ok "Org1MSP") fault' w' =
       (Err (OfficerAlreadyExists (OfficerID p)), w') /\
     fails_with (Submit (create q) (Ok "Org1MSP") fault' w').1
       AlreadyExists /\
     w' !! OfficerID p = Some (encode PolicePersonnel_json p)) /\
  (Submit (file fir) (Ok "Org1MSP") fault w = (Ok tt, w') ->
   FIRID fir' = FIRID fir ->
   fault' (GetStateCall (FIRID fir)) = None ->
     Submit (file fir') (Ok "Org1MSP") fault' w' =
       (Err (FIRAlreadyExists (FIRID fir)), w') /\
     fails_with (Submit (file fir') (Ok "Org1MSP") fault' w').1
       AlreadyExists /\
     w' !! FIRID fir = Some (encode FIR_json fir)).
Proof.
  split; intros Hfirst Hkey Hget.
  - apply create_succeeded in Hfirst. subst w'.
    assert (Hsecond : Submit (create q) (Ok "Org1MSP") fault'
              (<[OfficerID p := encode PolicePersonnel_json p]> w) =
            (Err (OfficerAlreadyExists (OfficerID p)),
             <[OfficerID p := encode PolicePersonnel_json p]> w)).
    { unfold Submit. rewrite create_spec. simpl. rewrite Hkey, Hget.
      rewrite lookup_insert_eq. reflexivity. }
    rewrite Hsecond. split; [reflexivity|]. split; [reflexivity|].
    apply lookup_insert_eq.
  - apply file_succeeded in Hfirst. subst w'.
    assert (Hsecond : Submit (file fir') (Ok "Org1MSP") fault'
              (<[FIRID fir := encode FIR_json fir]> w) =
            (Err (FIRAlreadyExists (FIRID fir)),
             <[FIRID fir := encode FIR_json fir]> w)).
    { unfold Submit. rewrite file_spec. simpl. rewrite Hkey, Hget.
      rewrite lookup_insert_eq. reflexivity. }
    rewrite Hsecond. split; [reflexivity|]. split; [reflexivity|].
    apply lookup_insert_eq.
Qed.


(** C6.  An authorized caller and a key absent from the world state:
    [UpdatePolicePersonnel], [UpdateFIR], [DeletePolicePersonnel] and
    [DeleteFIR] return the does-not-exist error (class NotFound) after one
    call to the stub, the read of the key, hence without a write, and the
    world state is left as it was.  The read of the key is assumed not to
    be failed by the platform. *)
Theorem absent_key_is_NotFound (w : gmap string bytes)
    (fault : StubCall -> option string)
    (p : PolicePersonnel) (firID status : string) :
  w !! OfficerID p = None -> fault (GetStateCall (OfficerID p)) = None ->
  w !! firID = None -> fault (GetStateCall firID) = None ->
  let ctx := begin (Ok "Org1MSP") fault w in
  (update p ctx =
     (Err (OfficerDoesNotExist (OfficerID p)),
      logged (GetStateCall (OfficerID p)) ctx) /\
   UpdateFIR firID status ctx =
     (Err (FIRDoesNotExist firID), logged (GetStateCall firID) ctx) /\
   DeletePolicePersonnel (OfficerID p) ctx =
     (Err (OfficerDoesNotExist (OfficerID p)),
      logged (GetStateCall (OfficerID p)) ctx) /\
   DeleteFIR firID ctx =
     (Err (FIRDoesNotExist firID), logged (GetStateCall firID) ctx)) /\
  (Submit (update p) (Ok "Org1MSP") fault w =
     (Err (OfficerDoesNotExist (OfficerID p)), w) /\
   Submit (UpdateFIR firID status) (Ok "Org1MSP") fault w =
     (Err (FIRDoesNotExist firID), w) /\
   Submit (DeletePolicePersonnel (OfficerID p)) (Ok "Org1MSP") fault w =
     (Err (OfficerDoesNotExist (OfficerID p)), w) /\
   Submit (DeleteFIR firID) (Ok "Org1MSP") fault w =
     (Err (FIRDoesNotExist firID), w)) /\
  kind_of (OfficerDoesNotExist (OfficerID p)) = NotFound /\
  kind_of (FIRDoesNotExist firID) = NotFound.
Proof.
  intros Hp Hgetp Hf Hgetf ctx. subst ctx.
  assert (H1 : update p (begin (Ok "Org1MSP") fault w) =
     (Err (OfficerDoesNotExist (OfficerID p)),
      logged (GetStateCall (OfficerID p)) (begin (Ok "Org1MSP") fault w))).
  { rewrite update_spec. simpl. rewrite Hgetp, Hp. reflexivity. }
  assert (H2 : UpdateFIR firID status (begin (Ok "Org1MSP") fault w) =
     (Err (FIRDoesNotExist firID),
      logged (GetStateCall firID) (begin (Ok "Org1MSP") fault w))).
  { rewrite UpdateFIR_spec. simpl. rewrite Hgetf, Hf. reflexivity. }
  assert (H3 : DeletePolicePersonnel (OfficerID p)
                 (begin (Ok "Org1MSP") fault w) =
     (Err (OfficerDoesNotExist (OfficerID p)),
      logged (GetStateCall (OfficerID p)) (begin (Ok "Org1MSP") fault w))).
  { rewrite DeletePolicePersonnel_spec. simpl. rewrite Hgetp, Hp.
    reflexivity. }
  assert (H4 : DeleteFIR firID (begin (Ok "Org1MSP") fault w) =
     (Err (FIRDoesNotExist firID),
      logged (GetStateCall firID) (begin (Ok "Org1MSP") fault w))).
  { rewrite DeleteFIR_spec. simpl. rewrite Hgetf, Hf. reflexivity. }
  repeat split; eauto using Submit_Err.
Qed.

(** C8.  For every world state, key and caller: [PersonnelExists] and
    [FIRExists] make one call to the stub, the read of the key; when the
    platform answers it they return true if the key is present and false
    if it is absent, never an error; they return an error only when the
    platform fails the read; in both cases the world state is left as it
    was. *)
Theorem exists_iff_present (w : gmap string bytes) (k : string)
    (mspid : result string) (fault : StubCall -> option string) :
  let ctx := begin mspid fault w in
  let present := bool_decide (is_Some (w !! k)) in
  (present = true <-> is_Some (w !! k)) /\
  (PersonnelExists k ctx).2 = logged (GetStateCall k) ctx /\
  (FIRExists k ctx).2 = logged (GetStateCall k) ctx /\
  match fault (GetStateCall k) with
  | None =>
      Submit (PersonnelExists k) mspid fault w = (Ok present, w) /\
      Submit (FIRExists k) mspid fault w = (Ok present, w)
  | Some msg =>
      Submit (PersonnelExists k) mspid fault w =
        (Err (FailedToRead (External msg)), w) /\
      Submit (FIRExists k) mspid fault w =
        (Err (FailedToRead (External msg)), w)
  end.
Proof.
  intros ctx present. subst ctx present.
  split; [apply bool_decide_eq_true|].
  unfold Submit. rewrite PersonnelExists_spec, FIRExists_spec. simpl.
  destruct (fault (GetStateCall k)) eqn:Hget; simpl;
    (split; [reflexivity|]); (split; [reflexivity|]);
    try (split; reflexivity).
  unfold commit. simpl. unfold apply_call. rewrite Hget.
  split; reflexivity.
Qed.

(** C10.  Whatever bytes [v] are stored at a key, a case record as well
    as a personnel record, [CreatePolicePersonnel] of that key by an
    authorized caller returns the already-exists error (class
    AlreadyExists) and changes nothing, and so does [FileFIR]: the
    existence checks look at the presence of a value only.  The read of
    the key is assumed not to be failed by the platform. *)
Theorem create_checks_the_key_only (w : gmap string bytes) (v : bytes)
    (fault : StubCall -> option string) (p : PolicePersonnel) (fir : FIR) :
  (w !! OfficerID p = Some v ->
   fault (GetStateCall (OfficerID p)) = None ->
     Submit (create p) (Ok "Org1MSP") fault w =
       (Err (OfficerAlreadyExists (OfficerID p)), w) /\
     fails_with (Submit (create p) (Ok "Org1MSP") fault w).1
       AlreadyExists) /\
  (w !! FIRID fir = Some v ->
   fault (GetStateCall (FIRID fir)) = None ->
     Submit (file fir) (Ok "Org1MSP") fault w =
       (Err (FIRAlreadyExists (FIRID fir)), w) /\
     fails_with (Submit (file fir) (Ok "Org1MSP") fault w).1
       AlreadyExists).
Proof.
  split; intros Hstored Hget.
  - assert (H : Submit (create p) (Ok "Org1MSP") fault w =
                (Err (OfficerAlreadyExists (OfficerID p)), w)).
    { unfold Submit. rewrite create_spec. simpl. rewrite Hget, Hstored.
      reflexivity. }
    rewrite H. split; reflexivity.
  - assert (H : Submit (file fir) (Ok "Org1MSP") fault w =
                (Err (FIRAlreadyExists (FIRID fir)), w)).
    { unfold Submit. rewrite file_spec. simpl. rewrite Hget, Hstored.
      reflexivity. }
    rewrite H. split; reflexivity.
Qed.
End CRUD.

(** ** Enumeration *)

Lemma apply_call_no_write fault w c :
  is_write c = false -> apply_call fault w c = w.
Proof. unfold apply_call. destruct c, (fault _); done. Qed.

Section ReadsOnly.
Context {A B : Type}.

Lemma ret_reads_only (a : A) : reads_only (ret a).
Proof. intros ctx. done. Qed.

Lemma throw_reads_only e : reads_only (@throw A e).
Proof. intros ctx. done. Qed.

Lemma lift_reads_only (r : result A) : reads_only (lift r).
Proof. intros ctx. done. Qed.

Lemma call_reads_only c (answer : ChaincodeStub -> A) :
  is_write c = false -> reads_only (call c answer).
Proof.
  intros Hc ctx. unfold call.
  destruct (fault (stub ctx) c); cbn [snd];
    (split; [done|]; split; [done|]);
    rewrite commit_logged; by apply apply_call_no_write.
Qed.

Lemma bind_reads_only (m : Tx A) (k : A -> Tx B) :
  reads_only m -> (forall a, reads_only (k a)) -> reads_only (bind m k).
Proof.
  intros Hm Hk ctx. unfold bind. specialize (Hm ctx).
  destruct (m ctx) as [[a|e] ctx']; simpl in *; [|done].
  destruct (Hk a ctx') as (-> & -> & ->). done.
Qed.

Lemma wrapping_reads_only wrap (m : Tx A) :
  reads_only m -> reads_only (wrapping wrap m).
Proof.
  intros Hm ctx. unfold wrapping. specialize (Hm ctx).
  destruct (m ctx) as [[a|e] ctx']; done.
Qed.

Lemma defer_reads_only (d : Tx unit) (m : Tx A) :
  reads_only d -> reads_only m -> reads_only (defer d m).
Proof.
  intros Hd Hm ctx. unfold defer. specialize (Hm ctx).
  destruct (m ctx) as [r ctx']; simpl in *.
  destruct (Hd ctx') as (-> & -> & ->). done.
Qed.
End ReadsOnly.

Lemma Policeman_collect_reads_only it acc :
  reads_only (PolicemanRecord.collect it acc).
Proof.
  revert acc. induction it as [|kv it IH]; intros acc; simpl.
  - apply ret_reads_only.
  - apply bind_reads_only; [by apply call_reads_only|]. intros qr.
    apply bind_reads_only; [apply lift_reads_only|]. intros p. apply IH.
Qed.

Lemma FIR_collect_reads_only it acc : reads_only (FIRRecord.collect it acc).
Proof.
  revert acc. induction it as [|kv it IH]; intros acc; simpl.
  - apply ret_reads_only.
  - apply bind_reads_only; [by apply call_reads_only|]. intros qr.
    apply bind_reads_only; [apply lift_reads_only|]. intros fir. apply IH.
Qed.

Lemma GetAllPersonnel_reads_only : reads_only PolicemanRecord.GetAllPersonnel.
Proof.
  apply bind_reads_only; [by apply call_reads_only|]. intros it.
  apply defer_reads_only; [by apply call_reads_only|].
  apply Policeman_collect_reads_only.
Qed.

Lemma GetAllFIRs_reads_only : reads_only FIRRecord.GetAllFIRs.
Proof.
  apply bind_reads_only; [by apply call_reads_only|]. intros it.
  apply defer_reads_only; [by apply call_reads_only|].
  apply FIR_collect_reads_only.
Qed.

Lemma Submit_reads_only {A} (tx : Tx A) mspid fault w :
  reads_only tx -> (Submit tx mspid fault w).2 = w.
Proof.
  intros Htx. unfold Submit. specialize (Htx (begin mspid fault w)).
  destruct (tx _) as [[a|e] ctx']; simpl in *; [|done].
  by destruct Htx as (_ & _ & ->).
Qed.

Lemma inRange_open key : inRange "" "" key = true.
Proof. destruct key; reflexivity. Qed.

Lemma rangeOf_open (w : gmap string bytes) :
  rangeOf "" "" w ≡ₚ map_to_list w.
Proof.
  unfold rangeOf. rewrite merge_sort_Permutation.
  induction (map_to_list w) as [|kv l IH]; [done|].
  rewrite filter_cons_True by apply inRange_open. by rewrite IH.
Qed.

Section Enumeration.
Import PolicemanRecord FIRRecord.







End Enumeration.

(** ** Stored records carry their key *)

Lemma apply_call_failed fault w c msg :
  fault c = Some msg -> apply_call fault w c = w.
Proof. unfold apply_call. intros ->. reflexivity. Qed.

Lemma commit_begin mspid fault w : commit (stub (begin mspid fault w)) = w.
Proof. reflexivity. Qed.

Lemma Submit_answering {A} (f : A -> Response) (m : Tx A) mspid fault w :
  (Submit (answering f m) mspid fault w).2 = (Submit m mspid fault w).2.
Proof.
  unfold Submit, answering, bind, ret.
  destruct (m _) as [[a|e] ctx']; reflexivity.
Qed.

Lemma is_personnel_encode p :
  is_personnel (PolicemanRecord.OfficerID p)
    (encode PolicemanRecord.PolicePersonnel_json p).
Proof. exists p. by rewrite PolicePersonnel_roundtrip. Qed.

Lemma is_case_encode fir :
  is_case (FIRRecord.FIRID fir) (encode FIRRecord.FIR_json fir).
Proof. exists fir. by rewrite FIR_roundtrip. Qed.

Lemma is_case_set_Status k v status fir :
  is_case k v -> Unmarshal FIRRecord.FIR_json v = Ok fir ->
  is_case k (encode FIRRecord.FIR_json (FIRRecord.set_Status status fir)).
Proof.
  intros (fir' & _ & Hread & <-) Hfir.
  assert (fir' = fir) as -> by congruence.
  apply (is_case_encode (FIRRecord.set_Status status fir)).
Qed.

Section KeyedBy.
Variable ok : string -> bytes -> Prop.

Lemma keyed_by_insert w k v :
  ok k v -> keyed_by ok w -> keyed_by ok (<[k := v]> w).
Proof.
  intros Hv Hw k' v'. rewrite lookup_insert. case_decide; [|apply Hw].
  by intros [= <-]; subst.
Qed.

Lemma keyed_by_delete w k : keyed_by ok w -> keyed_by ok (delete k w).
Proof.
  intros Hw k' v'. rewrite lookup_delete. case_decide; [done|apply Hw].
Qed.

Lemma Submit_keyed_by {A} (tx : Tx A) mspid faults w :
  keyed_by ok w ->
  keyed_by ok (commit (stub (tx (begin mspid faults w)).2)) ->
  keyed_by ok (Submit tx mspid faults w).2.
Proof. unfold Submit. destruct (tx _) as [[a|e] ctx']; done. Qed.

Lemma Policeman_putAll_keyed_by l ctx :
  (forall p, ok (PolicemanRecord.OfficerID p)
               (encode PolicemanRecord.PolicePersonnel_json p)) ->
  keyed_by ok (commit (stub ctx)) ->
  keyed_by ok (commit (stub (PolicemanRecord.putAll l ctx).2)).
Proof.
  intros Hok. revert ctx.
  induction l as [|p l IH]; intros ctx Hctx; simpl; [done|].
  unfold bind at 1. unfold lift, Marshal.
  unfold bind at 1. unfold wrapping, PutState, call.
  destruct (fault (stub ctx) _) eqn:Hput; cbn [snd].
  - rewrite commit_logged. by erewrite apply_call_failed.
  - apply IH. rewrite commit_logged, apply_call_put by done.
    by apply keyed_by_insert.
Qed.

Lemma FIR_putAll_keyed_by l ctx :
  (forall fir, ok (FIRRecord.FIRID fir) (encode FIRRecord.FIR_json fir)) ->
  keyed_by ok (commit (stub ctx)) ->
  keyed_by ok (commit (stub (FIRRecord.putAll l ctx).2)).
Proof.
  intros Hok. revert ctx.
  induction l as [|fir l IH]; intros ctx Hctx; simpl; [done|].
  unfold bind at 1. unfold lift, Marshal.
  unfold bind at 1. unfold wrapping, PutState, call.
  destruct (fault (stub ctx) _) eqn:Hput; cbn [snd].
  - rewrite commit_logged. by erewrite apply_call_failed.
  - apply IH. rewrite commit_logged, apply_call_put by done.
    by apply keyed_by_insert.
Qed.
End KeyedBy.

Lemma Policeman_onlyPolice_leaves ctx :
  (PolicemanRecord.onlyPolice ctx).2 = ctx.
Proof.
  unfold PolicemanRecord.onlyPolice, PolicemanRecord.getMSPID, bind, wrapping,
    throw, ret.
  destruct (MSPID ctx) as [mspid|]; [|done].
  by destruct (negb _).
Qed.

(** The cases of the gate, for a caller [mspid]. *)
Ltac gate_cases mspid :=
  cbv zeta; cbn [begin MSPID stub fault state];
  destruct mspid as [mspid|]; [|by cbn [snd]];
  destruct (String.eqb mspid "Org1MSP"); [|by cbn [snd]].

(** The world state a context commits to, call by call. *)
Ltac committed :=
  cbn [snd]; rewrite ?commit_logged; cbn [begin stub fault state];
  rewrite ?commit_begin, ?apply_call_read;
  try (erewrite apply_call_failed by eassumption);
  try (rewrite apply_call_put by assumption);
  try (rewrite apply_call_del by assumption).

(** One invocation keeps the invariant [ok], when the records the contract
    of the entry point writes satisfy it and [UpdateFIR] finds a case record
    with the key it is given. *)
Lemma step_keeps_keyed_by ok i mspid faults w :
  (chaincode_of i = PolicemanRecordCC ->
   forall p, ok (PolicemanRecord.OfficerID p)
               (encode PolicemanRecord.PolicePersonnel_json p)) ->
  (chaincode_of i = FIRRecordCC ->
   forall fir, ok (FIRRecord.FIRID fir) (encode FIRRecord.FIR_json fir)) ->
  (forall k status v,
     i = updateCaseStatus k status -> w !! k = Some v -> is_case k v) ->
  keyed_by ok w ->
  keyed_by ok (Submit (invoke i) mspid faults w).2.
Proof.
  intros Hp Hfir Hupd Hw.
  destruct i as [|p|k|p|k|k| | |fir|k|k status|k|k|]; simpl in *;
    rewrite Submit_answering;
    try specialize (Hp eq_refl); try specialize (Hfir eq_refl).
  - (* seedPersonnel *)
    apply Submit_keyed_by; [done|].
    unfold PolicemanRecord.InitLedger, bind.
    pose proof (Policeman_onlyPolice_leaves (begin mspid faults w)) as Hgate.
    destruct (PolicemanRecord.onlyPolice _) as [[[]|e] ctx']; simpl in Hgate;
      subst ctx'; [|done].
    by apply Policeman_putAll_keyed_by.
  - (* createPersonnel *)
    apply Submit_keyed_by; [done|]. rewrite create_spec. gate_cases mspid.
    destruct (faults (GetStateCall _)) eqn:Hget; [by committed|].
    destruct (w !! _) eqn:Hk; [by committed|].
    destruct (faults (PutStateCall _ _)) eqn:Hput; committed; [done|].
    by apply keyed_by_insert.
  - (* readPersonnel *)
    apply Submit_keyed_by; [done|]. rewrite ReadPolicePersonnel_spec.
    gate_cases mspid.
    destruct (faults (GetStateCall _)) eqn:Hget; [by committed|].
    destruct (w !! _) eqn:Hk; by committed.
  - (* updatePersonnel *)
    apply Submit_keyed_by; [done|]. rewrite update_spec. gate_cases mspid.
    destruct (faults (GetStateCall _)) eqn:Hget; [by committed|].
    destruct (w !! _) eqn:Hk; [|by committed].
    destruct (faults (PutStateCall _ _)) eqn:Hput; committed; [done|].
    by apply keyed_by_insert.
  - (* deletePersonnel *)
    apply Submit_keyed_by; [done|]. rewrite DeletePolicePersonnel_spec.
    gate_cases mspid.
    destruct (faults (GetStateCall _)) eqn:Hget; [by committed|].
    destruct (w !! _) eqn:Hk; [|by committed].
    destruct (faults (DelStateCall _)) eqn:Hdel; committed; [done|].
    by apply keyed_by_delete.
  - (* personnelExists *)
    apply Submit_keyed_by; [done|]. rewrite PersonnelExists_spec.
    cbn [begin stub fault state].
    destruct (faults (GetStateCall _)) eqn:Hget; by committed.
  - (* listAllPersonnel *)
    by rewrite Submit_reads_only by apply GetAllPersonnel_reads_only.
  - (* seedCases *)
    apply Submit_keyed_by; [done|]. unfold FIRRecord.InitLedger.
    by apply FIR_putAll_keyed_by.
  - (* fileCase *)
    apply Submit_keyed_by; [done|]. rewrite file_spec. gate_cases mspid.
    destruct (faults (GetStateCall _)) eqn:Hget; [by committed|].
    destruct (w !! _) eqn:Hk; [by committed|].
    destruct (faults (PutStateCall _ _)) eqn:Hput; committed; [done|].
    by apply keyed_by_insert.
  - (* readCase *)
    apply Submit_keyed_by; [done|]. rewrite ReadFIR_spec.
    cbn [begin stub fault state].
    destruct (faults (GetStateCall _)) eqn:Hget; [by committed|].
    destruct (w !! _) eqn:Hk; by committed.
  - (* updateCaseStatus *)
    apply Submit_keyed_by; [done|]. rewrite UpdateFIR_spec. gate_cases mspid.
    destruct (faults (GetStateCall _)) eqn:Hget; [by committed|].
    destruct (w !! k) as [v|] eqn:Hk; [|by committed].
    pose proof (Hupd k status v eq_refl Hk) as Hcase.
    destruct (Unmarshal FIRRecord.FIR_json v) as [fir|e] eqn:Hread;
      [|by committed].
    destruct (faults (PutStateCall _ _)) eqn:Hput; committed; [done|].
    apply keyed_by_insert; [|done].
    destruct Hcase as (fir' & _ & Hread' & <-).
    assert (fir' = fir) as -> by congruence.
    apply (Hfir (FIRRecord.set_Status status fir)).
  - (* deleteCase *)
    apply Submit_keyed_by; [done|]. rewrite DeleteFIR_spec. gate_cases mspid.
    destruct (faults (GetStateCall _)) eqn:Hget; [by committed|].
    destruct (w !! _) eqn:Hk; [|by committed].
    destruct (faults (DelStateCall _)) eqn:Hdel; committed; [done|].
    by apply keyed_by_delete.
  - (* caseExists *)
    apply Submit_keyed_by; [done|]. rewrite FIRExists_spec.
    cbn [begin stub fault state].
    destruct (faults (GetStateCall _)) eqn:Hget; by committed.
  - (* listAllCases *)
    by rewrite Submit_reads_only by apply GetAllFIRs_reads_only.
Qed.

(** On a ledger of its own, every value a contract stores is a record of the
    contract under its own identifier. *)
Lemma each_contract_keeps_its_records_keyed cc w :
  reachable (on_its_own_ledger cc) w -> keyed_by (record_of cc) w.
Proof.
  induction 1 as [|w i mspid faults Hreach IH Hcc].
  - intros k v. by rewrite lookup_empty.
  - unfold on_its_own_ledger in Hcc. subst cc.
    apply step_keeps_keyed_by; try done.
    + intros Hi p. rewrite Hi. apply is_personnel_encode.
    + intros Hi fir. rewrite Hi. apply is_case_encode.
    + intros k status v -> Hk. apply (IH k v Hk).
Qed.




(** ** The scenarios of the specification *)

(** A personnel record is created, found, deleted, and then no longer
    read. *)
Example personnel_scenario :
  let '(r1, w1) := Submit (create POL12346) (Ok "Org1MSP") healthy ∅ in
  let '(r2, w2) :=
    Submit (PolicemanRecord.PersonnelExists "POL12346") (Ok "Org1MSP")
      healthy w1 in
  let '(r3, w3) :=
    Submit (PolicemanRecord.DeletePolicePersonnel "POL12346") (Ok "Org1MSP")
      healthy w2 in
  let '(r4, w4) :=
    Submit (PolicemanRecord.ReadPolicePersonnel "POL12346") (Ok "Org1MSP")
      healthy w3 in
  r1 = Ok tt /\ r2 = Ok true /\ r3 = Ok tt /\
  r4 = Err (OfficerDoesNotExist "POL12346") /\ w4 = ∅.
Proof. vm_compute. repeat split. Qed.

(** A case is filed and closed; closing a case that does not exist fails. *)
Example case_scenario :
  let '(r1, w1) := Submit (file FIR3) (Ok "Org1MSP") healthy ∅ in
  let '(r2, w2) :=
    Submit (FIRRecord.UpdateFIR "FIR3" "Closed") (Ok "Org1MSP") healthy w1 in
  let '(r3, w3) :=
    Submit (FIRRecord.ReadFIR "FIR3") (Ok "Org1MSP") healthy w2 in
  let '(r4, w4) :=
    Submit (FIRRecord.UpdateFIR "NON_EXISTENT" "Closed") (Ok "Org1MSP")
      healthy w3 in
  r1 = Ok tt /\ r2 = Ok tt /\
  r3 = Ok (FIRRecord.set_Status "Closed" FIR3) /\
  r4 = Err (FIRDoesNotExist "NON_EXISTENT") /\ w4 = w2.
Proof. vm_compute. repeat split. Qed.

(** On one ledger for the two contracts, [UpdateFIR] of a key that holds a
    personnel record decodes it as a case record with every field empty,
    and stores that, with the new status, in its place. *)
Example UpdateFIR_of_a_personnel_key :
  let w := <["POL12346" :=
              encode PolicemanRecord.PolicePersonnel_json POL12346]> ∅ in
  Submit (FIRRecord.UpdateFIR "POL12346" "Closed") (Ok "Org1MSP") healthy w =
    (Ok tt,
     <["POL12346" :=
         encode FIRRecord.FIR_json
           (FIRRecord.set_Status "Closed" (zero FIRRecord.FIR_json))]> w).
Proof.
  cbv zeta. unfold Submit. rewrite UpdateFIR_spec.
  cbn [begin MSPID stub fault state]. rewrite lookup_insert_eq. reflexivity.
Qed.

(** * Further properties *)

(** ** Create, read, update, delete *)

Lemma FIR_decoded_as_PolicePersonnel fir :
  Unmarshal PolicemanRecord.PolicePersonnel_json
    (encode FIRRecord.FIR_json fir) =
  Ok (zero PolicemanRecord.PolicePersonnel_json).
Proof. destruct fir. reflexivity. Qed.

Section MoreCRUD.
Import PolicemanRecord FIRRecord.

(** X1.  A gated operation called in a context whose client identity
    cannot be read ([GetMSPID] returns an error): the gate returns that
    error wrapped as "unable to get MSP ID: ...", the operation makes no
    call to the stub, and the world state is left as it was. *)
Theorem gate_fails_without_identity (i : Invocation)
    (ctx : TransactionContext) (cause : error) :
  spec_gated i = true -> MSPID ctx = Err cause ->
  invoke i ctx = (Err (UnableToGetMSPID cause), ctx) /\
  fails_with (invoke i ctx).1 AuthorizationDenied /\
  forall faults w,
    Submit (invoke i) (Err cause) faults w =
      (Err (UnableToGetMSPID cause), w).
Proof.
  intros Hg Hid.
  assert (Hrun : forall ctx', MSPID ctx' = Err cause ->
            invoke i ctx' = (Err (UnableToGetMSPID cause), ctx')).
  { clear ctx Hid. intros ctx Hid.
    destruct i as [|p|?|p|?|?| | |fir|?|? ?|?|?|]; try discriminate Hg;
      try destruct p; try destruct fir; simpl;
      apply answering_Err, bind_Err;
      unfold PolicemanRecord.onlyPolice, FIRRecord.onlyPolice,
        PolicemanRecord.getMSPID, FIRRecord.getMSPID, bind, wrapping;
      by rewrite Hid. }
  rewrite (Hrun ctx Hid). repeat split.
  intros faults w. eapply Submit_Err. by apply Hrun.
Qed.


(** X3.  [DeletePolicePersonnel] and [DeleteFIR] by an authorized caller on
    a key that is present, whatever bytes it holds: the key is removed and
    no other; afterwards a read of it fails as not found and the existence
    checks answer false. *)
Theorem delete_removes_the_key (w : gmap string bytes) (old : bytes)
    (k : string) (mspid : result string) :
  w !! k = Some old ->
  let w' := delete k w in
  (Submit (DeletePolicePersonnel k) (Ok "Org1MSP") healthy w = (Ok tt, w') /\
   Submit (DeleteFIR k) (Ok "Org1MSP") healthy w = (Ok tt, w')) /\
  (Submit (ReadPolicePersonnel k) (Ok "Org1MSP") healthy w' =
     (Err (OfficerDoesNotExist k), w') /\
   Submit (ReadFIR k) mspid healthy w' = (Err (FIRDoesNotExist k), w')) /\
  (Submit (PersonnelExists k) mspid healthy w' = (Ok false, w') /\
   Submit (FIRExists k) mspid healthy w' = (Ok false, w')) /\
  (forall k', k' <> k -> w' !! k' = w !! k').
Proof.
  intros Hold w'. subst w'.
  split; [split|split; [split|split; [split|]]]; unfold Submit.
  - rewrite DeletePolicePersonnel_spec. simpl. rewrite Hold. reflexivity.
  - rewrite DeleteFIR_spec. simpl. rewrite Hold. reflexivity.
  - rewrite ReadPolicePersonnel_spec. simpl. rewrite lookup_delete_eq.
    reflexivity.
  - rewrite ReadFIR_spec. simpl. rewrite lookup_delete_eq. reflexivity.
  - rewrite PersonnelExists_spec. simpl. rewrite lookup_delete_eq.
    reflexivity.
  - rewrite FIRExists_spec. simpl. rewrite lookup_delete_eq. reflexivity.
  - intros k' Hk. apply lookup_delete_ne. congruence.
Qed.

(** X4.  A create of an absent key followed by the delete of that key
    gives back the world state from before the create, for both
    contracts. *)
Theorem delete_undoes_create (w : gmap string bytes) (p : PolicePersonnel)
    (fir : FIR) :
  (w !! OfficerID p = None ->
   Submit (DeletePolicePersonnel (OfficerID p)) (Ok "Org1MSP") healthy
     (Submit (create p) (Ok "Org1MSP") healthy w).2 = (Ok tt, w)) /\
  (w !! FIRID fir = None ->
   Submit (DeleteFIR (FIRID fir)) (Ok "Org1MSP") healthy
     (Submit (file fir) (Ok "Org1MSP") healthy w).2 = (Ok tt, w)).
Proof.
  split; intros Habsent.
  - rewrite create_fresh by done. unfold Submit.
    rewrite DeletePolicePersonnel_spec. simpl. rewrite lookup_insert_eq.
    unfold commit. simpl. rewrite apply_call_read, apply_call_del by done.
    by rewrite delete_insert_id.
  - rewrite file_fresh by done. unfold Submit.
    rewrite DeleteFIR_spec. simpl. rewrite lookup_insert_eq.
    unfold commit. simpl. rewrite apply_call_read, apply_call_del by done.
    by rewrite delete_insert_id.
Qed.

(** X5.  Reads.  Of an absent key: [ReadPolicePersonnel] (authorized) and
    [ReadFIR] (any caller) fail as not found.  Of a key whose bytes do not
    decode: both return the error of [json.Unmarshal] as it is, and so does
    [UpdateFIR], before any write. *)
Theorem read_of_a_missing_or_undecodable_value (w : gmap string bytes)
    (k status : string) (mspid : result string) (v : bytes) (e e' : error) :
  (w !! k = None ->
   Submit (ReadPolicePersonnel k) (Ok "Org1MSP") healthy w =
     (Err (OfficerDoesNotExist k), w) /\
   Submit (ReadFIR k) mspid healthy w = (Err (FIRDoesNotExist k), w) /\
   fails_with (Submit (ReadPolicePersonnel k) (Ok "Org1MSP") healthy w).1
     NotFound /\
   fails_with (Submit (ReadFIR k) mspid healthy w).1 NotFound) /\
  (w !! k = Some v -> Unmarshal PolicePersonnel_json v = Err e ->
   Submit (ReadPolicePersonnel k) (Ok "Org1MSP") healthy w = (Err e, w) /\
   kind_of e = SerializationError) /\
  (w !! k = Some v -> Unmarshal FIR_json v = Err e' ->
   Submit (ReadFIR k) mspid healthy w = (Err e', w) /\
   UpdateFIR k status (begin (Ok "Org1MSP") healthy w) =
     (Err e', logged (GetStateCall k) (begin (Ok "Org1MSP") healthy w)) /\
   Submit (UpdateFIR k status) (Ok "Org1MSP") healthy w = (Err e', w) /\
   kind_of e' = SerializationError).
Proof.
  split; [|split].
  - intros Habsent.
    assert (H1 : Submit (ReadPolicePersonnel k) (Ok "Org1MSP") healthy w =
                 (Err (OfficerDoesNotExist k), w)).
    { unfold Submit. rewrite ReadPolicePersonnel_spec. simpl.
      rewrite Habsent. reflexivity. }
    assert (H2 : Submit (ReadFIR k) mspid healthy w =
                 (Err (FIRDoesNotExist k), w)).
    { unfold Submit. rewrite ReadFIR_spec. simpl. rewrite Habsent.
      reflexivity. }
    rewrite H1, H2. repeat split.
  - intros Hv He. split; [|by eapply Unmarshal_error].
    unfold Submit. rewrite ReadPolicePersonnel_spec. simpl.
    rewrite Hv, He. reflexivity.
  - intros Hv He.
    assert (Hrun : UpdateFIR k status (begin (Ok "Org1MSP") healthy w) =
              (Err e', logged (GetStateCall k)
                         (begin (Ok "Org1MSP") healthy w))).
    { rewrite UpdateFIR_spec. simpl. rewrite Hv, He. reflexivity. }
    split; [|split; [exact Hrun|split]].
    + unfold Submit. rewrite ReadFIR_spec. simpl. rewrite Hv, He.
      reflexivity.
    + by eapply Submit_Err.
    + by eapply Unmarshal_error.
Qed.

(** X6.  [InitLedger] writes its sample records over whatever their keys
    hold and touches no other key, so a second run changes nothing; the one
    of the personnel contract needs an authorized caller, the one of the
    case contract runs for every caller. *)
Theorem seeding_overwrites_and_is_idempotent (w : gmap string bytes)
    (mspid : result string) :
  let wp := <["POL12345" := encode PolicePersonnel_json POL12345]> w in
  let wf := <["FIR2" := encode FIR_json FIR2]>
              (<["FIR1" := encode FIR_json FIR1]> w) in
  (Submit PolicemanRecord.InitLedger (Ok "Org1MSP") healthy w = (Ok tt, wp) /\
   Submit PolicemanRecord.InitLedger (Ok "Org1MSP") healthy wp =
     (Ok tt, wp)) /\
  (Submit FIRRecord.InitLedger mspid healthy w = (Ok tt, wf) /\
   Submit FIRRecord.InitLedger mspid healthy wf = (Ok tt, wf)).
Proof.
  intros wp wf.
  assert (Hp : forall w0, Submit PolicemanRecord.InitLedger (Ok "Org1MSP")
                 healthy w0 =
               (Ok tt, <["POL12345" := encode PolicePersonnel_json POL12345]>
                         w0)) by reflexivity.
  assert (Hf : forall w0, Submit FIRRecord.InitLedger mspid healthy w0 =
               (Ok tt, <["FIR2" := encode FIR_json FIR2]>
                         (<["FIR1" := encode FIR_json FIR1]> w0)))
    by reflexivity.
  subst wp wf. rewrite !Hp, !Hf. repeat split.
  - by rewrite insert_insert_eq.
  - f_equal. rewrite (insert_insert_ne _ "FIR1" "FIR2") by done.
    by rewrite !insert_insert_eq.
Qed.

(** X7.  Two [UpdateFIR] of one stored case record in a row: the record
    ends with the second status and its other six fields as they were;
    an [UpdateFIR] to the status the record has leaves the world state as
    it is. *)
Theorem UpdateFIR_last_status_wins (w : gmap string bytes)
    (k status status' : string) (fir : FIR) :
  w !! k = Some (encode FIR_json fir) ->
  Submit (UpdateFIR k status') (Ok "Org1MSP") healthy
    (Submit (UpdateFIR k status) (Ok "Org1MSP") healthy w).2 =
    (Ok tt, <[k := encode FIR_json (set_Status status' fir)]> w) /\
  Submit (UpdateFIR k (Status fir)) (Ok "Org1MSP") healthy w = (Ok tt, w).
Proof.
  intros Hstored.
  assert (Hrun : forall w0 fir0 s, w0 !! k = Some (encode FIR_json fir0) ->
            Submit (UpdateFIR k s) (Ok "Org1MSP") healthy w0 =
            (Ok tt, <[k := encode FIR_json (set_Status s fir0)]> w0)).
  { intros w0 fir0 s H0. unfold Submit. rewrite UpdateFIR_spec. simpl.
    rewrite H0, FIR_roundtrip. reflexivity. }
  split.
  - rewrite (Hrun w fir status Hstored). simpl.
    rewrite (Hrun _ (set_Status status fir) status')
      by apply lookup_insert_eq.
    by rewrite insert_insert_eq.
  - rewrite (Hrun w fir (Status fir) Hstored). f_equal.
    apply insert_id. rewrite Hstored. by destruct fir.
Qed.

(** X8.  A key that holds a personnel record, seen by the case contract:
    [ReadFIR] returns the case record with every field empty, and no error;
    [UpdateFIR] succeeds and replaces the personnel record by a case record
    that holds the status alone; [ReadPolicePersonnel] then returns the
    personnel record with every field empty. *)
Theorem UpdateFIR_overwrites_a_personnel_record (w : gmap string bytes)
    (k status : string) (mspid : result string) (p : PolicePersonnel) :
  w !! k = Some (encode PolicePersonnel_json p) ->
  let w' := <[k := encode FIR_json (set_Status status (zero FIR_json))]> w in
  Submit (ReadFIR k) mspid healthy w = (Ok (zero FIR_json), w) /\
  Submit (UpdateFIR k status) (Ok "Org1MSP") healthy w = (Ok tt, w') /\
  Submit (ReadPolicePersonnel k) (Ok "Org1MSP") healthy w' =
    (Ok (zero PolicePersonnel_json), w').
Proof.
  intros Hstored w'. subst w'. repeat split; unfold Submit.
  - rewrite ReadFIR_spec. simpl.
    rewrite Hstored, PolicePersonnel_decoded_as_FIR. reflexivity.
  - rewrite UpdateFIR_spec. simpl.
    rewrite Hstored, PolicePersonnel_decoded_as_FIR. reflexivity.
  - rewrite ReadPolicePersonnel_spec. simpl.
    rewrite lookup_insert_eq, FIR_decoded_as_PolicePersonnel. reflexivity.
Qed.

End MoreCRUD.

(** ** What an invocation leaves alone *)

Lemma answering_fst_Err {A} (f : A -> Response) (m : Tx A) ctx e :
  (answering f m ctx).1 = Err e -> (m ctx).1 = Err e.
Proof.
  unfold answering, bind, ret.
  destruct (m ctx) as [[a|e'] ctx']; simpl; intros H;
    [discriminate H|by injection H as ->].
Qed.

Lemma answering_snd {A} (f : A -> Response) (m : Tx A) ctx :
  (answering f m ctx).2 = (m ctx).2.
Proof.
  unfold answering, bind, ret. by destruct (m ctx) as [[a|e'] ctx'].
Qed.

Lemma FIR_onlyPolice_leaves ctx : (FIRRecord.onlyPolice ctx).2 = ctx.
Proof.
  unfold FIRRecord.onlyPolice, FIRRecord.getMSPID, bind, wrapping, throw, ret.
  destruct (MSPID ctx) as [mspid|]; [|done].
  by destruct (negb _).
Qed.

(** The cases of the gate in any context. *)
Ltac gate_cases_in ctx :=
  cbv zeta; destruct (MSPID ctx) as [?mspid|]; [|by cbn [fst snd]];
  destruct (String.eqb _ "Org1MSP"); [|by cbn [fst snd]].

(** The world state a context commits to, after the calls of one
    operation. *)
Ltac pending :=
  cbn [fst snd]; rewrite ?commit_logged;
  cbn [logged record_call stub fault state];
  rewrite ?apply_call_read;
  try (erewrite apply_call_failed by eassumption);
  try (rewrite apply_call_put by assumption);
  try (rewrite apply_call_del by assumption).

Section Frame.
Import PolicemanRecord FIRRecord.

Lemma Policeman_putAll_frame l ctx k :
  k ∉ map OfficerID l ->
  commit (stub (PolicemanRecord.putAll l ctx).2) !! k =
  commit (stub ctx) !! k.
Proof.
  revert ctx. induction l as [|p l IH]; intros ctx Hk; simpl; [done|].
  apply not_elem_of_cons in Hk as [Hp Hl].
  unfold bind at 1. unfold lift, Marshal.
  unfold bind at 1. unfold wrapping, PutState, call.
  destruct (fault (stub ctx) _) eqn:Hput; cbn [snd].
  - rewrite commit_logged. by erewrite apply_call_failed.
  - rewrite IH by done. rewrite commit_logged, apply_call_put by done.
    by apply lookup_insert_ne.
Qed.

Lemma FIR_putAll_frame l ctx k :
  k ∉ map FIRID l ->
  commit (stub (FIRRecord.putAll l ctx).2) !! k = commit (stub ctx) !! k.
Proof.
  revert ctx. induction l as [|fir l IH]; intros ctx Hk; simpl; [done|].
  apply not_elem_of_cons in Hk as [Hfir Hl].
  unfold bind at 1. unfold lift, Marshal.
  unfold bind at 1. unfold wrapping, PutState, call.
  destruct (fault (stub ctx) _) eqn:Hput; cbn [snd].
  - rewrite commit_logged. by erewrite apply_call_failed.
  - rewrite IH by done. rewrite commit_logged, apply_call_put by done.
    by apply lookup_insert_ne.
Qed.

Lemma Submit_frame {A} (tx : Tx A) mspid faults w k :
  commit (stub (tx (begin mspid faults w)).2) !! k = w !! k ->
  (Submit tx mspid faults w).2 !! k = w !! k.
Proof. unfold Submit. by destruct (tx _) as [[a|e] ctx']. Qed.

(** X10.  The frame of every entry point, for every caller and whatever
    calls the platform fails: a key outside [touched i] holds after the
    invocation what it held before, and the reads, existence checks and
    enumerations leave the whole world state as it was. *)
Theorem other_keys_are_left_alone (i : Invocation) (mspid : result string)
    (faults : StubCall -> option string) (w : gmap string bytes) :
  (forall k, k ∉ touched i ->
     (Submit (invoke i) mspid faults w).2 !! k = w !! k) /\
  (touched i = [] -> (Submit (invoke i) mspid faults w).2 = w).
Proof.
  assert (Hframe : forall k, k ∉ touched i ->
            (Submit (invoke i) mspid faults w).2 !! k = w !! k).
  { intros k' Hk'.
    destruct i as [|p|k|p|k|k| | |fir|k|k status|k|k|]; simpl in *;
      rewrite Submit_answering.
    - apply Submit_frame.
      unfold PolicemanRecord.InitLedger, bind.
      pose proof (Policeman_onlyPolice_leaves (begin mspid faults w)) as Hg.
      destruct (PolicemanRecord.onlyPolice _) as [[[]|e] ctx']; simpl in Hg;
        subst ctx'; [|done].
      by rewrite Policeman_putAll_frame.
    - apply Submit_frame. rewrite create_spec. gate_cases mspid.
      destruct (faults (GetStateCall _)) eqn:Hget; [by committed|].
      destruct (w !! OfficerID p) eqn:Hk; [by committed|].
      destruct (faults (PutStateCall _ _)) eqn:Hput; committed; [done|].
      apply lookup_insert_ne. set_solver.
    - apply Submit_frame. rewrite ReadPolicePersonnel_spec.
      gate_cases mspid.
      destruct (faults (GetStateCall _)) eqn:Hget; [by committed|].
      destruct (w !! k) eqn:Hk; by committed.
    - apply Submit_frame. rewrite update_spec. gate_cases mspid.
      destruct (faults (GetStateCall _)) eqn:Hget; [by committed|].
      destruct (w !! OfficerID p) eqn:Hk; [|by committed].
      destruct (faults (PutStateCall _ _)) eqn:Hput; committed; [done|].
      apply lookup_insert_ne. set_solver.
    - apply Submit_frame. rewrite DeletePolicePersonnel_spec.
      gate_cases mspid.
      destruct (faults (GetStateCall _)) eqn:Hget; [by committed|].
      destruct (w !! k) eqn:Hk; [|by committed].
      destruct (faults (DelStateCall _)) eqn:Hdel; committed; [done|].
      apply lookup_delete_ne. set_solver.
    - apply Submit_frame. rewrite PersonnelExists_spec.
      cbn [begin stub fault state].
      destruct (faults (GetStateCall _)) eqn:Hget; by committed.
    - by rewrite Submit_reads_only by apply GetAllPersonnel_reads_only.
    - apply Submit_frame. unfold FIRRecord.InitLedger.
      by rewrite FIR_putAll_frame.
    - apply Submit_frame. rewrite file_spec. gate_cases mspid.
      destruct (faults (GetStateCall _)) eqn:Hget; [by committed|].
      destruct (w !! FIRID fir) eqn:Hk; [by committed|].
      destruct (faults (PutStateCall _ _)) eqn:Hput; committed; [done|].
      apply lookup_insert_ne. set_solver.
    - apply Submit_frame. rewrite ReadFIR_spec.
      cbn [begin stub fault state].
      destruct (faults (GetStateCall _)) eqn:Hget; [by committed|].
      destruct (w !! k) eqn:Hk; by committed.
    - apply Submit_frame. rewrite UpdateFIR_spec. gate_cases mspid.
      destruct (faults (GetStateCall _)) eqn:Hget; [by committed|].
      destruct (w !! k) as [v|] eqn:Hk; [|by committed].
      destruct (Unmarshal FIR_json v) as [fir|e]; [|by committed].
      destruct (faults (PutStateCall _ _)) eqn:Hput; committed; [done|].
      apply lookup_insert_ne. set_solver.
    - apply Submit_frame. rewrite DeleteFIR_spec. gate_cases mspid.
      destruct (faults (GetStateCall _)) eqn:Hget; [by committed|].
      destruct (w !! k) eqn:Hk; [|by committed].
      destruct (faults (DelStateCall _)) eqn:Hdel; committed; [done|].
      apply lookup_delete_ne. set_solver.
    - apply Submit_frame. rewrite FIRExists_spec.
      cbn [begin stub fault state].
      destruct (faults (GetStateCall _)) eqn:Hget; by committed.
    - by rewrite Submit_reads_only by apply GetAllFIRs_reads_only. }
  split; [exact Hframe|].
  intros Hnone. apply map_eq. intros k. apply Hframe. rewrite Hnone.
  apply not_elem_of_nil.
Qed.
End Frame.

(** ** Errors and pending writes *)

Section Failures.
Import PolicemanRecord FIRRecord.

(** A leaf of a decision tree that returned an error: nothing is pending. *)
Ltac nothing_pending H :=
  cbn [fst snd] in *; first [discriminate H | by pending].

(** X11.  Every entry point but the [InitLedger] of the case contract makes
    its checks before its only write: when it returns an error, committing
    the calls it made would leave the world state as it was.  The
    [InitLedger] of the case contract writes two records in turn: when the
    second write fails, the first is pending at the time the error is
    returned. *)
Theorem errors_precede_writes (i : Invocation) (mspid : result string) :
  (i <> seedCases ->
   forall ctx e, (invoke i ctx).1 = Err e ->
     commit (stub (invoke i ctx).2) = commit (stub ctx)) /\
  (let ctx := begin mspid (failing_put "FIR2") ∅ in
   (invoke seedCases ctx).1 =
     Err (FailedToPut (External "ledger unavailable")) /\
   commit (stub (invoke seedCases ctx).2) =
     <["FIR1" := encode FIR_json FIR1]> ∅).
Proof.
  split; [|by vm_compute].
  intros Hi ctx e H.
  destruct i as [|p|k|p|k|k| | |fir|k|k status|k|k|]; simpl in *;
    try done; rewrite answering_snd; apply answering_fst_Err in H.
  - (* seedPersonnel *)
    revert H. unfold PolicemanRecord.InitLedger, bind.
    pose proof (Policeman_onlyPolice_leaves ctx) as Hg.
    destruct (PolicemanRecord.onlyPolice ctx) as [[[]|e'] ctx']; simpl in Hg;
      subst ctx'; [|done].
    unfold PolicemanRecord.putAll, bind, lift, Marshal, wrapping, PutState,
      call, ret.
    destruct (fault (stub ctx) _) eqn:Hput; intros H; nothing_pending H.
  - (* createPersonnel *)
    revert H. rewrite create_spec. gate_cases_in ctx.
    destruct (fault (stub ctx) (GetStateCall _)) eqn:Hget;
      [intros H; nothing_pending H|].
    destruct (state (stub ctx) !! _); [intros H; nothing_pending H|].
    destruct (fault (stub ctx) (PutStateCall _ _)) eqn:Hput; intros H;
      nothing_pending H.
  - (* readPersonnel *)
    revert H. rewrite ReadPolicePersonnel_spec. gate_cases_in ctx.
    destruct (fault (stub ctx) (GetStateCall _)) eqn:Hget;
      [intros H; nothing_pending H|].
    destruct (state (stub ctx) !! _); intros H; by pending.
  - (* updatePersonnel *)
    revert H. rewrite update_spec. gate_cases_in ctx.
    destruct (fault (stub ctx) (GetStateCall _)) eqn:Hget;
      [intros H; nothing_pending H|].
    destruct (state (stub ctx) !! _); [|intros H; nothing_pending H].
    destruct (fault (stub ctx) (PutStateCall _ _)) eqn:Hput; intros H;
      nothing_pending H.
  - (* deletePersonnel *)
    revert H. rewrite DeletePolicePersonnel_spec. gate_cases_in ctx.
    destruct (fault (stub ctx) (GetStateCall _)) eqn:Hget;
      [intros H; nothing_pending H|].
    destruct (state (stub ctx) !! _); [|intros H; nothing_pending H].
    destruct (fault (stub ctx) (DelStateCall _)) eqn:Hdel; intros H;
      nothing_pending H.
  - (* personnelExists *)
    revert H. rewrite PersonnelExists_spec.
    destruct (fault (stub ctx) (GetStateCall _)) eqn:Hget; intros H;
      nothing_pending H.
  - (* listAllPersonnel *)
    by destruct (GetAllPersonnel_reads_only ctx) as (_ & _ & ->).
  - (* fileCase *)
    revert H. rewrite file_spec. gate_cases_in ctx.
    destruct (fault (stub ctx) (GetStateCall _)) eqn:Hget;
      [intros H; nothing_pending H|].
    destruct (state (stub ctx) !! _); [intros H; nothing_pending H|].
    destruct (fault (stub ctx) (PutStateCall _ _)) eqn:Hput; intros H;
      nothing_pending H.
  - (* readCase *)
    revert H. rewrite ReadFIR_spec.
    destruct (fault (stub ctx) (GetStateCall _)) eqn:Hget;
      [intros H; nothing_pending H|].
    destruct (state (stub ctx) !! _); intros H; by pending.
  - (* updateCaseStatus *)
    revert H. rewrite UpdateFIR_spec. gate_cases_in ctx.
    destruct (fault (stub ctx) (GetStateCall _)) eqn:Hget;
      [intros H; nothing_pending H|].
    destruct (state (stub ctx) !! _) as [v|]; [|intros H; nothing_pending H].
    destruct (Unmarshal FIR_json v); [|intros H; nothing_pending H].
    destruct (fault (stub ctx) (PutStateCall _ _)) eqn:Hput; intros H;
      nothing_pending H.
  - (* deleteCase *)
    revert H. rewrite DeleteFIR_spec. gate_cases_in ctx.
    destruct (fault (stub ctx) (GetStateCall _)) eqn:Hget;
      [intros H; nothing_pending H|].
    destruct (state (stub ctx) !! _); [|intros H; nothing_pending H].
    destruct (fault (stub ctx) (DelStateCall _)) eqn:Hdel; intros H;
      nothing_pending H.
  - (* caseExists *)
    revert H. rewrite FIRExists_spec.
    destruct (fault (stub ctx) (GetStateCall _)) eqn:Hget; intros H;
      nothing_pending H.
  - (* listAllCases *)
    by destruct (GetAllFIRs_reads_only ctx) as (_ & _ & ->).
Qed.

(** X12.  The operations that begin with a read of their key (all but
    [InitLedger] and the enumerations): when the platform fails that read
    with [msg], an admitted call returns "failed to read from world state:
    msg", having made this one call and no write. *)
Theorem a_failed_read_is_reported (i : Invocation) (ctx : TransactionContext)
    (k msg : string) :
  first_read i = Some k ->
  (spec_gated i = true -> MSPID ctx = Ok "Org1MSP") ->
  fault (stub ctx) (GetStateCall k) = Some msg ->
  invoke i ctx =
    (Err (FailedToRead (External msg)), logged (GetStateCall k) ctx) /\
  Error (FailedToRead (External msg)) =
    "failed to read from world state: " ++ msg /\
  fails_with (invoke i ctx).1 StorageError /\
  commit (stub (invoke i ctx).2) = commit (stub ctx).
Proof.
  intros Hk Hid Hget.
  assert (Hrun : invoke i ctx =
            (Err (FailedToRead (External msg)),
             logged (GetStateCall k) ctx)).
  { destruct i as [|p|?|p|?|?| | |fir|?|? ?|?|?|]; simpl in *;
      simplify_eq; try rewrite (Hid eq_refl) in *; apply answering_Err.
    - rewrite create_spec. cbv zeta. by rewrite (Hid eq_refl), Hget.
    - rewrite ReadPolicePersonnel_spec. by rewrite (Hid eq_refl), Hget.
    - rewrite update_spec. cbv zeta. by rewrite (Hid eq_refl), Hget.
    - rewrite DeletePolicePersonnel_spec. by rewrite (Hid eq_refl), Hget.
    - rewrite PersonnelExists_spec. by rewrite Hget.
    - rewrite file_spec. cbv zeta. by rewrite (Hid eq_refl), Hget.
    - rewrite ReadFIR_spec. by rewrite Hget.
    - rewrite UpdateFIR_spec. by rewrite (Hid eq_refl), Hget.
    - rewrite DeleteFIR_spec. by rewrite (Hid eq_refl), Hget.
    - rewrite FIRExists_spec. by rewrite Hget. }
  rewrite Hrun. repeat split.
  cbn [snd]. rewrite commit_logged. apply apply_call_read.
Qed.
End Failures.

Section FailedWrites.
Import PolicemanRecord FIRRecord.

(** X13.  On a ledger that serves reads and refuses writes and deletes
    with [msg]: the two [InitLedger] return "failed to put to world state:
    msg"; create, update and delete, on a key in the state they require,
    return the error of the platform as it is, unwrapped; the world state
    is unchanged. *)
Theorem a_failed_write_is_reported (w : gmap string bytes) (msg : string)
    (mspid : result string) (p : PolicePersonnel) (fir : FIR)
    (k status : string) (old : bytes) :
  let faults := read_only_ledger msg in
  (Submit PolicemanRecord.InitLedger (Ok "Org1MSP") faults w =
     (Err (FailedToPut (External msg)), w) /\
   Submit FIRRecord.InitLedger mspid faults w =
     (Err (FailedToPut (External msg)), w) /\
   Error (FailedToPut (External msg)) =
     "failed to put to world state: " ++ msg) /\
  (w !! OfficerID p = None ->
   Submit (create p) (Ok "Org1MSP") faults w = (Err (External msg), w)) /\
  (w !! OfficerID p = Some old ->
   Submit (update p) (Ok "Org1MSP") faults w = (Err (External msg), w)) /\
  (w !! FIRID fir = None ->
   Submit (file fir) (Ok "Org1MSP") faults w = (Err (External msg), w)) /\
  (w !! k = Some (encode FIR_json fir) ->
   Submit (UpdateFIR k status) (Ok "Org1MSP") faults w =
     (Err (External msg), w)) /\
  (w !! k = Some old ->
   Submit (DeletePolicePersonnel k) (Ok "Org1MSP") faults w =
     (Err (External msg), w) /\
   Submit (DeleteFIR k) (Ok "Org1MSP") faults w = (Err (External msg), w)).
Proof.
  intros faults. subst faults.
  split; [split; [|split]|split; [|split; [|split; [|split]]]].
  - by vm_compute.
  - by vm_compute.
  - reflexivity.
  - intros Hk. eapply Submit_Err. rewrite create_spec. simpl.
    rewrite Hk. reflexivity.
  - intros Hk. eapply Submit_Err. rewrite update_spec. simpl.
    rewrite Hk. reflexivity.
  - intros Hk. eapply Submit_Err. rewrite file_spec. simpl.
    rewrite Hk. reflexivity.
  - intros Hk. eapply Submit_Err. rewrite UpdateFIR_spec. simpl.
    rewrite Hk, FIR_roundtrip. reflexivity.
  - intros Hk. split; eapply Submit_Err.
    + rewrite DeletePolicePersonnel_spec. simpl. rewrite Hk. reflexivity.
    + rewrite DeleteFIR_spec. simpl. rewrite Hk. reflexivity.
Qed.
End FailedWrites.

(** ** Enumeration on any world state *)

Section EnumerationMore.
Import PolicemanRecord FIRRecord.

Lemma Policeman_collect_result it acc ctx found :
  (PolicemanRecord.collect it acc ctx).1 = Ok found ->
  exists l, found = (acc ++ l)%list /\
            Forall2 (fun kv p => Unmarshal PolicePersonnel_json kv.2 = Ok p)
              it l.
Proof.
  revert acc ctx. induction it as [|kv it IH]; intros acc ctx; simpl.
  - intros [= <-]. exists []. by rewrite app_nil_r.
  - unfold bind at 1. unfold Next, call.
    destruct (fault (stub ctx) _); [discriminate|]. cbn [fst snd].
    unfold bind at 1. unfold lift.
    destruct (Unmarshal PolicePersonnel_json kv.2) as [p|e] eqn:Hp;
      [|discriminate].
    intros H. apply IH in H as (l & -> & Hl).
    exists (p :: l). split; [by rewrite <- app_assoc|by constructor].
Qed.

Lemma FIR_collect_result it acc ctx found :
  (FIRRecord.collect it acc ctx).1 = Ok found ->
  exists l, found = (acc ++ l)%list /\
            Forall2 (fun kv fir => Unmarshal FIR_json kv.2 = Ok fir) it l.
Proof.
  revert acc ctx. induction it as [|kv it IH]; intros acc ctx; simpl.
  - intros [= <-]. exists []. by rewrite app_nil_r.
  - unfold bind at 1. unfold Next, call.
    destruct (fault (stub ctx) _); [discriminate|]. cbn [fst snd].
    unfold bind at 1. unfold lift.
    destruct (Unmarshal FIR_json kv.2) as [fir|e] eqn:Hfir; [|discriminate].
    intros H. apply IH in H as (l & -> & Hl).
    exists (fir :: l). split; [by rewrite <- app_assoc|by constructor].
Qed.

Lemma Policeman_collect_error it acc ctx e :
  (forall c, fault (stub ctx) c = None) ->
  (PolicemanRecord.collect it acc ctx).1 = Err e ->
  kind_of e = SerializationError.
Proof.
  revert acc ctx. induction it as [|kv it IH]; intros acc ctx Hh; simpl.
  - discriminate.
  - unfold bind at 1. unfold Next, call. rewrite Hh. cbn [fst snd].
    unfold bind at 1. unfold lift.
    destruct (Unmarshal PolicePersonnel_json kv.2) as [p|e'] eqn:Hp.
    + apply IH. intros c. apply Hh.
    + intros [= <-]. by eapply Unmarshal_error.
Qed.

Lemma FIR_collect_error it acc ctx e :
  (forall c, fault (stub ctx) c = None) ->
  (FIRRecord.collect it acc ctx).1 = Err e ->
  kind_of e = SerializationError.
Proof.
  revert acc ctx. induction it as [|kv it IH]; intros acc ctx Hh; simpl.
  - discriminate.
  - unfold bind at 1. unfold Next, call. rewrite Hh. cbn [fst snd].
    unfold bind at 1. unfold lift.
    destruct (Unmarshal FIR_json kv.2) as [fir|e'] eqn:Hfir.
    + apply IH. intros c. apply Hh.
    + intros [= <-]. by eapply Unmarshal_error.
Qed.

Lemma Policeman_collect_calls it acc ctx :
  exists n,
    calls (stub (PolicemanRecord.collect it acc ctx).2) =
    (calls (stub ctx) ++ map NextCall (take n it.*1))%list.
Proof.
  revert acc ctx. induction it as [|kv it IH]; intros acc ctx; simpl.
  - exists 0. by rewrite app_nil_r.
  - unfold bind at 1. unfold Next, call.
    destruct (fault (stub ctx) _); cbn [fst snd].
    + exists 1. reflexivity.
    + unfold bind at 1. unfold lift.
      destruct (Unmarshal PolicePersonnel_json kv.2) as [p|e].
      * destruct (IH (acc ++ [p])%list (logged (NextCall kv.1) ctx))
          as [n ->].
        exists (S n). simpl. by rewrite <- app_assoc.
      * exists 1. reflexivity.
Qed.

Lemma FIR_collect_calls it acc ctx :
  exists n,
    calls (stub (FIRRecord.collect it acc ctx).2) =
    (calls (stub ctx) ++ map NextCall (take n it.*1))%list.
Proof.
  revert acc ctx. induction it as [|kv it IH]; intros acc ctx; simpl.
  - exists 0. by rewrite app_nil_r.
  - unfold bind at 1. unfold Next, call.
    destruct (fault (stub ctx) _); cbn [fst snd].
    + exists 1. reflexivity.
    + unfold bind at 1. unfold lift.
      destruct (Unmarshal FIR_json kv.2) as [fir|e].
      * destruct (IH (acc ++ [fir])%list (logged (NextCall kv.1) ctx))
          as [n ->].
        exists (S n). simpl. by rewrite <- app_assoc.
      * exists 1. reflexivity.
Qed.

Lemma GetAllPersonnel_calls ctx :
  fault (stub ctx) (GetStateByRangeCall "" "") = None ->
  exists n,
    calls (stub (GetAllPersonnel ctx).2) =
    (calls (stub ctx) ++ [GetStateByRangeCall "" ""] ++
     map NextCall (take n (rangeOf "" "" (state (stub ctx))).*1) ++
     [CloseCall])%list.
Proof.
  intros Hopen. unfold GetAllPersonnel, GetStateByRange, bind, call.
  rewrite Hopen. unfold defer.
  destruct (Policeman_collect_calls (rangeOf "" "" (state (stub ctx))) []
              (logged (GetStateByRangeCall "" "") ctx)) as [n Hn].
  exists n. destruct (PolicemanRecord.collect _ _ _) as [r ctx'].
  cbn [snd] in *. unfold Close, call.
  destruct (fault (stub ctx') CloseCall);
    cbn [snd logged stub record_call calls]; rewrite Hn;
    cbn [snd logged stub record_call calls]; by rewrite <- !app_assoc.
Qed.

Lemma GetAllFIRs_calls ctx :
  fault (stub ctx) (GetStateByRangeCall "" "") = None ->
  exists n,
    calls (stub (GetAllFIRs ctx).2) =
    (calls (stub ctx) ++ [GetStateByRangeCall "" ""] ++
     map NextCall (take n (rangeOf "" "" (state (stub ctx))).*1) ++
     [CloseCall])%list.
Proof.
  intros Hopen. unfold GetAllFIRs, GetStateByRange, bind, call.
  rewrite Hopen. unfold defer.
  destruct (FIR_collect_calls (rangeOf "" "" (state (stub ctx))) []
              (logged (GetStateByRangeCall "" "") ctx)) as [n Hn].
  exists n. destruct (FIRRecord.collect _ _ _) as [r ctx'].
  cbn [snd] in *. unfold Close, call.
  destruct (fault (stub ctx') CloseCall);
    cbn [snd logged stub record_call calls]; rewrite Hn;
    cbn [snd logged stub record_call calls]; by rewrite <- !app_assoc.
Qed.

(** X14.  The enumerations and their iterator.  When [GetStateByRange]
    fails, its error is returned as it is and nothing else is called.
    Otherwise the calls are: the open range query, [Next] on a prefix of the
    keys in range, and one [Close] at the end, on the paths that return an
    error as well. *)
Theorem enumeration_closes_its_iterator (ctx : TransactionContext) :
  let opened := GetStateByRangeCall "" "" in
  let keys := (rangeOf "" "" (state (stub ctx))).*1 in
  match fault (stub ctx) opened with
  | Some msg =>
      GetAllPersonnel ctx = (Err (External msg), logged opened ctx) /\
      GetAllFIRs ctx = (Err (External msg), logged opened ctx)
  | None =>
      (exists n,
         calls (stub (GetAllPersonnel ctx).2) =
         (calls (stub ctx) ++ [opened] ++ map NextCall (take n keys) ++
          [CloseCall])%list) /\
      (exists n,
         calls (stub (GetAllFIRs ctx).2) =
         (calls (stub ctx) ++ [opened] ++ map NextCall (take n keys) ++
          [CloseCall])%list)
  end.
Proof.
  intros opened keys. subst opened keys.
  destruct (fault (stub ctx) _) eqn:Hopen.
  - unfold GetAllPersonnel, GetAllFIRs, GetStateByRange, bind, call.
    by rewrite Hopen.
  - split; [by apply GetAllPersonnel_calls|by apply GetAllFIRs_calls].
Qed.

Lemma GetAllPersonnel_result ctx :
  fault (stub ctx) (GetStateByRangeCall "" "") = None ->
  (GetAllPersonnel ctx).1 =
  (PolicemanRecord.collect (rangeOf "" "" (state (stub ctx))) []
     (logged (GetStateByRangeCall "" "") ctx)).1.
Proof.
  intros Hopen. unfold GetAllPersonnel, GetStateByRange.
  unfold bind at 1. unfold call at 1. rewrite Hopen. unfold defer.
  by destruct (PolicemanRecord.collect _ _ _).
Qed.

Lemma GetAllFIRs_result ctx :
  fault (stub ctx) (GetStateByRangeCall "" "") = None ->
  (GetAllFIRs ctx).1 =
  (FIRRecord.collect (rangeOf "" "" (state (stub ctx))) []
     (logged (GetStateByRangeCall "" "") ctx)).1.
Proof.
  intros Hopen. unfold GetAllFIRs, GetStateByRange.
  unfold bind at 1. unfold call at 1. rewrite Hopen. unfold defer.
  by destruct (FIRRecord.collect _ _ _).
Qed.

Lemma GetAllPersonnel_opened ctx found :
  (GetAllPersonnel ctx).1 = Ok found ->
  fault (stub ctx) (GetStateByRangeCall "" "") = None.
Proof.
  unfold GetAllPersonnel, GetStateByRange.
  unfold bind at 1. unfold call at 1.
  by destruct (fault (stub ctx) _).
Qed.

Lemma GetAllFIRs_opened ctx found :
  (GetAllFIRs ctx).1 = Ok found ->
  fault (stub ctx) (GetStateByRangeCall "" "") = None.
Proof.
  unfold GetAllFIRs, GetStateByRange.
  unfold bind at 1. unfold call at 1.
  by destruct (fault (stub ctx) _).
Qed.

Lemma Submit_fst {A} (tx : Tx A) mspid faults w :
  (Submit tx mspid faults w).1 = (tx (begin mspid faults w)).1.
Proof. unfold Submit. by destruct (tx _) as [[a|e] ctx']. Qed.

(** X15.  An enumeration that succeeds, on any world state and for any
    caller: it changes nothing, and it returns one record per key of the
    world state, in the order of the range query, each the decoding of the
    value at its key. *)
Theorem enumeration_returns_one_record_per_key (w w' : gmap string bytes)
    (mspid : result string) (faults : StubCall -> option string)
    (personnel : list PolicePersonnel) (firs : list FIR) :
  (Submit GetAllPersonnel mspid faults w = (Ok personnel, w') ->
   w' = w /\
   Forall2 (fun kv p => Unmarshal PolicePersonnel_json kv.2 = Ok p)
     (rangeOf "" "" w) personnel /\
   length personnel = size w) /\
  (Submit GetAllFIRs mspid faults w = (Ok firs, w') ->
   w' = w /\
   Forall2 (fun kv fir => Unmarshal FIR_json kv.2 = Ok fir)
     (rangeOf "" "" w) firs /\
   length firs = size w).
Proof.
  split; intros Hrun.
  - pose proof (f_equal fst Hrun) as Hfound.
    pose proof (f_equal snd Hrun) as Hw. cbn [fst snd] in *.
    rewrite Submit_reads_only in Hw by apply GetAllPersonnel_reads_only.
    rewrite Submit_fst in Hfound.
    pose proof (GetAllPersonnel_opened _ _ Hfound) as Hopen.
    rewrite GetAllPersonnel_result in Hfound by done.
    apply Policeman_collect_result in Hfound as (l & -> & Hl).
    split; [done|]. split; [exact Hl|].
    apply Forall2_length in Hl. simpl in *. rewrite <- Hl.
    by rewrite rangeOf_open, length_map_to_list.
  - pose proof (f_equal fst Hrun) as Hfound.
    pose proof (f_equal snd Hrun) as Hw. cbn [fst snd] in *.
    rewrite Submit_reads_only in Hw by apply GetAllFIRs_reads_only.
    rewrite Submit_fst in Hfound.
    pose proof (GetAllFIRs_opened _ _ Hfound) as Hopen.
    rewrite GetAllFIRs_result in Hfound by done.
    apply FIR_collect_result in Hfound as (l & -> & Hl).
    split; [done|]. split; [exact Hl|].
    apply Forall2_length in Hl. simpl in *. rewrite <- Hl.
    by rewrite rangeOf_open, length_map_to_list.
Qed.

(** X16.  On a platform that fails no call, one value in the world state
    that does not decode as a record of the contract makes the enumeration
    of that contract fail with a decoding error, whatever else is stored. *)
Theorem enumeration_fails_on_an_undecodable_value (w : gmap string bytes)
    (mspid : result string) (k : string) (v : bytes) (e e' : error) :
  w !! k = Some v ->
  (Unmarshal PolicePersonnel_json v = Err e ->
   fails_with (Submit GetAllPersonnel mspid healthy w).1 SerializationError) /\
  (Unmarshal FIR_json v = Err e' ->
   fails_with (Submit GetAllFIRs mspid healthy w).1 SerializationError).
Proof.
  intros Hv.
  assert (Hin : (k, v) ∈ rangeOf "" "" w).
  { rewrite rangeOf_open. by apply elem_of_map_to_list. }
  split; intros He; rewrite Submit_fst.
  - rewrite GetAllPersonnel_result by done.
    destruct (PolicemanRecord.collect _ _ _).1 as [found|e0] eqn:Hrun.
    + apply Policeman_collect_result in Hrun as (l & _ & Hl).
      apply list_elem_of_lookup in Hin as [n Hn].
      destruct (Forall2_lookup_l _ _ _ _ _ Hl Hn) as (p & _ & Hp).
      simpl in Hp. congruence.
    + simpl. eapply Policeman_collect_error; [|exact Hrun].
      intros c. reflexivity.
  - rewrite GetAllFIRs_result by done.
    destruct (FIRRecord.collect _ _ _).1 as [found|e0] eqn:Hrun.
    + apply FIR_collect_result in Hrun as (l & _ & Hl).
      apply list_elem_of_lookup in Hin as [n Hn].
      destruct (Forall2_lookup_l _ _ _ _ _ Hl Hn) as (fir & _ & Hfir).
      simpl in Hfir. congruence.
    + simpl. eapply FIR_collect_error; [|exact Hrun].
      intros c. reflexivity.
Qed.
End EnumerationMore.

(** ** The classes of error *)

Section ErrorClasses.
Import PolicemanRecord FIRRecord.

Lemma Policeman_collect_kind it acc ctx e :
  (PolicemanRecord.collect it acc ctx).1 = Err e ->
  kind_of e = SerializationError \/
  (kind_of e = StorageError /\ exists c, fault (stub ctx) c <> None).
Proof.
  revert acc ctx. induction it as [|kv it IH]; intros acc ctx; simpl.
  - discriminate.
  - unfold bind at 1. unfold Next, call.
    destruct (fault (stub ctx) (NextCall kv.1)) eqn:Hnext; cbn [fst snd].
    + intros [= <-]. right. split; [done|]. exists (NextCall kv.1).
      by rewrite Hnext.
    + unfold bind at 1. unfold lift.
      destruct (Unmarshal PolicePersonnel_json kv.2) as [p|e'] eqn:Hp.
      * intros H. apply IH in H as [H|[H Hc]]; [by left|by right].
      * intros [= <-]. left. by eapply Unmarshal_error.
Qed.

Lemma FIR_collect_kind it acc ctx e :
  (FIRRecord.collect it acc ctx).1 = Err e ->
  kind_of e = SerializationError \/
  (kind_of e = StorageError /\ exists c, fault (stub ctx) c <> None).
Proof.
  revert acc ctx. induction it as [|kv it IH]; intros acc ctx; simpl.
  - discriminate.
  - unfold bind at 1. unfold Next, call.
    destruct (fault (stub ctx) (NextCall kv.1)) eqn:Hnext; cbn [fst snd].
    + intros [= <-]. right. split; [done|]. exists (NextCall kv.1).
      by rewrite Hnext.
    + unfold bind at 1. unfold lift.
      destruct (Unmarshal FIR_json kv.2) as [fir|e'] eqn:Hfir.
      * intros H. apply IH in H as [H|[H Hc]]; [by left|by right].
      * intros [= <-]. left. by eapply Unmarshal_error.
Qed.

(** What an error returned in [ctx] can be: an error allowed by the table,
    and a storage error only when the platform failed a call. *)
Lemma error_allowed i ctx e :
  (invoke i ctx).1 = Err e ->
  may_fail_with i (kind_of e) = true /\
  (kind_of e = StorageError -> exists c, fault (stub ctx) c <> None).
Proof.
  intros H.
  destruct i as [|p|k|p|k|k| | |fir|k|k status|k|k|]; simpl in H;
    apply answering_fst_Err in H; revert H.
  - (* seedPersonnel *)
    unfold PolicemanRecord.InitLedger, PolicemanRecord.onlyPolice,
      PolicemanRecord.getMSPID, PolicemanRecord.putAll, bind, lift, Marshal,
      wrapping, PutState, call, ret, throw.
    destruct (MSPID ctx) as [mspid|]; cbn [fst snd]; [|by intros [= <-]].
    destruct (negb _); cbn [fst snd]; [by intros [= <-]|].
    destruct (fault (stub ctx) _) eqn:Hput; cbn [fst snd]; [|done].
    intros [= <-]. split; [done|]. intros _. eexists. by rewrite Hput.
  - (* createPersonnel *)
    rewrite create_spec. cbv zeta.
    destruct (MSPID ctx) as [mspid|]; cbn [fst snd]; [|by intros [= <-]].
    destruct (String.eqb _ _); cbn [fst snd]; [|by intros [= <-]].
    destruct (fault (stub ctx) (GetStateCall _)) eqn:Hget; cbn [fst snd].
    { intros [= <-]. split; [done|]. intros _. eexists. by rewrite Hget. }
    destruct (state (stub ctx) !! _); cbn [fst snd]; [by intros [= <-]|].
    destruct (fault (stub ctx) (PutStateCall _ _)) eqn:Hput; cbn [fst snd];
      [|done].
    intros [= <-]. split; [done|]. intros _. eexists. by rewrite Hput.
  - (* readPersonnel *)
    rewrite ReadPolicePersonnel_spec.
    destruct (MSPID ctx) as [mspid|]; cbn [fst snd]; [|by intros [= <-]].
    destruct (String.eqb _ _); cbn [fst snd]; [|by intros [= <-]].
    destruct (fault (stub ctx) (GetStateCall _)) eqn:Hget; cbn [fst snd].
    { intros [= <-]. split; [done|]. intros _. eexists. by rewrite Hget. }
    destruct (state (stub ctx) !! _); cbn [fst snd]; [|by intros [= <-]].
    intros H. apply Unmarshal_error in H. by rewrite H.
  - (* updatePersonnel *)
    rewrite update_spec. cbv zeta.
    destruct (MSPID ctx) as [mspid|]; cbn [fst snd]; [|by intros [= <-]].
    destruct (String.eqb _ _); cbn [fst snd]; [|by intros [= <-]].
    destruct (fault (stub ctx) (GetStateCall _)) eqn:Hget; cbn [fst snd].
    { intros [= <-]. split; [done|]. intros _. eexists. by rewrite Hget. }
    destruct (state (stub ctx) !! _); cbn [fst snd]; [|by intros [= <-]].
    destruct (fault (stub ctx) (PutStateCall _ _)) eqn:Hput; cbn [fst snd];
      [|done].
    intros [= <-]. split; [done|]. intros _. eexists. by rewrite Hput.
  - (* deletePersonnel *)
    rewrite DeletePolicePersonnel_spec. cbv zeta.
    destruct (MSPID ctx) as [mspid|]; cbn [fst snd]; [|by intros [= <-]].
    destruct (String.eqb _ _); cbn [fst snd]; [|by intros [= <-]].
    destruct (fault (stub ctx) (GetStateCall _)) eqn:Hget; cbn [fst snd].
    { intros [= <-]. split; [done|]. intros _. eexists. by rewrite Hget. }
    destruct (state (stub ctx) !! _); cbn [fst snd]; [|by intros [= <-]].
    destruct (fault (stub ctx) (DelStateCall _)) eqn:Hdel; cbn [fst snd];
      [|done].
    intros [= <-]. split; [done|]. intros _. eexists. by rewrite Hdel.
  - (* personnelExists *)
    rewrite PersonnelExists_spec.
    destruct (fault (stub ctx) (GetStateCall _)) eqn:Hget; cbn [fst snd];
      [|done].
    intros [= <-]. split; [done|]. intros _. eexists. by rewrite Hget.
  - (* listAllPersonnel *)
    unfold GetAllPersonnel, GetStateByRange, bind, call.
    destruct (fault (stub ctx) (GetStateByRangeCall _ _)) eqn:Hopen;
      cbn [fst snd].
    { intros [= <-]. split; [done|]. intros _. eexists. by rewrite Hopen. }
    unfold defer.
    destruct (PolicemanRecord.collect _ _ _) as [r ctx'] eqn:Hrun.
    cbn [fst]. intros ->.
    pose proof (Policeman_collect_kind _ _ _ e (f_equal fst Hrun)) as Hk.
    destruct Hk as [Hk|[Hk Hc]]; rewrite Hk; split; try done.
  - (* seedCases *)
    unfold FIRRecord.InitLedger, FIRRecord.putAll, bind, lift, Marshal,
      wrapping, PutState, call, ret.
    match goal with
    | |- context [fault (stub ctx) ?c] =>
        destruct (fault (stub ctx) c) eqn:Hput1; cbn [fst snd]
    end.
    { intros [= <-]. split; [done|]. intros _. eexists. by rewrite Hput1. }
    cbn [logged stub record_call fault].
    match goal with
    | |- context [fault (stub ctx) ?c] =>
        destruct (fault (stub ctx) c) eqn:Hput2; cbn [fst snd]; [|done]
    end.
    intros [= <-]. split; [done|]. intros _. eexists. by rewrite Hput2.
  - (* fileCase *)
    rewrite file_spec. cbv zeta.
    destruct (MSPID ctx) as [mspid|]; cbn [fst snd]; [|by intros [= <-]].
    destruct (String.eqb _ _); cbn [fst snd]; [|by intros [= <-]].
    destruct (fault (stub ctx) (GetStateCall _)) eqn:Hget; cbn [fst snd].
    { intros [= <-]. split; [done|]. intros _. eexists. by rewrite Hget. }
    destruct (state (stub ctx) !! _); cbn [fst snd]; [by intros [= <-]|].
    destruct (fault (stub ctx) (PutStateCall _ _)) eqn:Hput; cbn [fst snd];
      [|done].
    intros [= <-]. split; [done|]. intros _. eexists. by rewrite Hput.
  - (* readCase *)
    rewrite ReadFIR_spec.
    destruct (fault (stub ctx) (GetStateCall _)) eqn:Hget; cbn [fst snd].
    { intros [= <-]. split; [done|]. intros _. eexists. by rewrite Hget. }
    destruct (state (stub ctx) !! _); cbn [fst snd]; [|by intros [= <-]].
    intros H. apply Unmarshal_error in H. by rewrite H.
  - (* updateCaseStatus *)
    rewrite UpdateFIR_spec. cbv zeta.
    destruct (MSPID ctx) as [mspid|]; cbn [fst snd]; [|by intros [= <-]].
    destruct (String.eqb _ _); cbn [fst snd]; [|by intros [= <-]].
    destruct (fault (stub ctx) (GetStateCall _)) eqn:Hget; cbn [fst snd].
    { intros [= <-]. split; [done|]. intros _. eexists. by rewrite Hget. }
    destruct (state (stub ctx) !! _) as [v|]; cbn [fst snd];
      [|by intros [= <-]].
    destruct (Unmarshal FIR_json v) as [fir|e'] eqn:Hfir; cbn [fst snd].
    + destruct (fault (stub ctx) (PutStateCall _ _)) eqn:Hput; cbn [fst snd];
        [|done].
      intros [= <-]. split; [done|]. intros _. eexists. by rewrite Hput.
    + intros [= <-]. apply Unmarshal_error in Hfir. by rewrite Hfir.
  - (* deleteCase *)
    rewrite DeleteFIR_spec. cbv zeta.
    destruct (MSPID ctx) as [mspid|]; cbn [fst snd]; [|by intros [= <-]].
    destruct (String.eqb _ _); cbn [fst snd]; [|by intros [= <-]].
    destruct (fault (stub ctx) (GetStateCall _)) eqn:Hget; cbn [fst snd].
    { intros [= <-]. split; [done|]. intros _. eexists. by rewrite Hget. }
    destruct (state (stub ctx) !! _); cbn [fst snd]; [|by intros [= <-]].
    destruct (fault (stub ctx) (DelStateCall _)) eqn:Hdel; cbn [fst snd];
      [|done].
    intros [= <-]. split; [done|]. intros _. eexists. by rewrite Hdel.
  - (* caseExists *)
    rewrite FIRExists_spec.
    destruct (fault (stub ctx) (GetStateCall _)) eqn:Hget; cbn [fst snd];
      [|done].
    intros [= <-]. split; [done|]. intros _. eexists. by rewrite Hget.
  - (* listAllCases *)
    unfold GetAllFIRs, GetStateByRange, bind, call.
    destruct (fault (stub ctx) (GetStateByRangeCall _ _)) eqn:Hopen;
      cbn [fst snd].
    { intros [= <-]. split; [done|]. intros _. eexists. by rewrite Hopen. }
    unfold defer.
    destruct (FIRRecord.collect _ _ _) as [r ctx'] eqn:Hrun.
    cbn [fst]. intros ->.
    pose proof (FIR_collect_kind _ _ _ e (f_equal fst Hrun)) as Hk.
    destruct Hk as [Hk|[Hk Hc]]; rewrite Hk; split; try done.
Qed.

Lemma fails_with_answering {A} (f : A -> Response) (m : Tx A) ctx kd :
  fails_with (m ctx).1 kd -> fails_with (answering f m ctx).1 kd.
Proof.
  unfold answering, bind, ret. by destruct (m ctx) as [[a|e] ctx'].
Qed.

Lemma error_attained i kd :
  may_fail_with i kd = true -> exists ctx, fails_with (invoke i ctx).1 kd.
Proof.
  intros Hmay. destruct kd.
  - (* AuthorizationDenied *)
    exists (begin (Ok "Org2MSP") healthy ∅).
    rewrite (gated_denies i _ "Org2MSP"); [done| |done|done].
    by destruct i.
  - (* NotFound *)
    exists (begin (Ok "Org1MSP") healthy ∅).
    destruct i as [|p|k|p|k|k| | |fir|k|k status|k|k|]; try discriminate;
      simpl.
    + apply fails_with_answering.
      rewrite ReadPolicePersonnel_spec. simpl. by rewrite lookup_empty.
    + apply fails_with_answering.
      rewrite update_spec. simpl. by rewrite lookup_empty.
    + apply fails_with_answering.
      rewrite DeletePolicePersonnel_spec. simpl. by rewrite lookup_empty.
    + apply fails_with_answering.
      rewrite ReadFIR_spec. simpl. by rewrite lookup_empty.
    + apply fails_with_answering.
      rewrite UpdateFIR_spec. simpl. by rewrite lookup_empty.
    + apply fails_with_answering.
      rewrite DeleteFIR_spec. simpl. by rewrite lookup_empty.
  - (* AlreadyExists *)
    destruct i as [|p|k|p|k|k| | |fir|k|k status|k|k|]; try discriminate.
    + exists (begin (Ok "Org1MSP") healthy {[OfficerID p := Garbage ""]}).
      simpl. apply fails_with_answering.
      rewrite create_spec. simpl. by rewrite lookup_singleton_eq.
    + exists (begin (Ok "Org1MSP") healthy {[FIRID fir := Garbage ""]}).
      simpl. apply fails_with_answering.
      rewrite file_spec. simpl. by rewrite lookup_singleton_eq.
  - (* SerializationError *)
    destruct i as [|p|k|p|k|k| | |fir|k|k status|k|k|]; try discriminate.
    + exists (begin (Ok "Org1MSP") healthy {[k := Garbage "no JSON"]}).
      simpl. apply fails_with_answering.
      rewrite ReadPolicePersonnel_spec. simpl.
      by rewrite lookup_singleton_eq.
    + exists (begin (Ok "Org1MSP") healthy {["K" := Garbage "no JSON"]}).
      by vm_compute.
    + exists (begin (Ok "Org1MSP") healthy {[k := Garbage "no JSON"]}).
      simpl. apply fails_with_answering.
      rewrite ReadFIR_spec. simpl. by rewrite lookup_singleton_eq.
    + exists (begin (Ok "Org1MSP") healthy {[k := Garbage "no JSON"]}).
      simpl. apply fails_with_answering.
      rewrite UpdateFIR_spec. simpl. by rewrite lookup_singleton_eq.
    + exists (begin (Ok "Org1MSP") healthy {["K" := Garbage "no JSON"]}).
      by vm_compute.
  - (* StorageError *)
    exists (begin (Ok "Org1MSP") unavailable ∅).
    destruct i as [|p|k|p|k|k| | |fir|k|k status|k|k|]; simpl;
      try (by vm_compute); apply fails_with_answering.
    + by rewrite create_spec.
    + by rewrite update_spec.
    + by rewrite file_spec.
Qed.

(** X17.  The classes of error of each entry point are exactly those of
    the table [may_fail_with]: an operation returns no error of a class
    outside its row, and for each class in its row there is a transaction
    context in which it returns one. *)
Theorem error_classes_of_each_operation (i : Invocation) (kd : ErrorKind) :
  may_fail_with i kd = true <-> exists ctx, fails_with (invoke i ctx).1 kd.
Proof.
  split; [apply error_attained|].
  intros [ctx H]. unfold fails_with in H.
  destruct (invoke i ctx).1 as [r|e] eqn:Hrun; [done|]. subst kd.
  by apply (error_allowed i ctx e).
Qed.

(** X18.  In a transaction in which the platform fails no call, no entry
    point returns a storage error. *)
Theorem storage_errors_come_from_the_platform (i : Invocation)
    (ctx : TransactionContext) :
  (forall c, fault (stub ctx) c = None) ->
  ~ fails_with (invoke i ctx).1 StorageError.
Proof.
  intros Hh H. unfold fails_with in H.
  destruct (invoke i ctx).1 as [r|e] eqn:Hrun; [done|].
  destruct (error_allowed i ctx e Hrun) as [_ Hc].
  destruct (Hc H) as [c Hfault]. by rewrite Hh in Hfault.
Qed.
End ErrorClasses.

(** ** The properties at concrete inputs *)

Section Witnesses.
Import PolicemanRecord FIRRecord.

Lemma authorization_gate_witness :
  ~ fails_with
      (invoke (createPersonnel POL12346) (begin (Ok "Org1MSP") healthy ∅)).1
      AuthorizationDenied /\
  invoke (deleteCase "FIR1") (begin (Ok "Org2MSP") healthy ∅) =
    (Err AccessDenied, begin (Ok "Org2MSP") healthy ∅).
Proof.
  split.
  - destruct (authorization_gate (createPersonnel POL12346)
                (begin (Ok "Org1MSP") healthy ∅) eq_refl) as [Hadmits _].
    destruct (Hadmits eq_refl) as (_ & _ & H & _). exact H.
  - destruct (authorization_gate (deleteCase "FIR1")
                (begin (Ok "Org2MSP") healthy ∅) eq_refl) as [_ Hdenies].
    destruct (Hdenies "Org2MSP" eq_refl) as (H & _); [discriminate|exact H].
Defined.

Lemma gate_coverage_witness :
  caller_blind (invoke (readCase "FIR1")) /\
  forall ctx mspid, MSPID ctx = Ok mspid -> mspid <> "Org1MSP" ->
    invoke (readPersonnel "POL12345") ctx = (Err AccessDenied, ctx).
Proof.
  split.
  - destruct (gate_coverage (readCase "FIR1")) as [_ Hblind].
    apply Hblind. reflexivity.
  - destruct (gate_coverage (readPersonnel "POL12345")) as [[Hdenies _] _].
    apply Hdenies. reflexivity.
Defined.


Lemma second_create_fails_witness :
  Submit (create (set_Name "Another" POL12346)) (Ok "Org1MSP") healthy
    (<["POL12346" := encode PolicePersonnel_json POL12346]> ∅) =
    (Err (OfficerAlreadyExists "POL12346"),
     <["POL12346" := encode PolicePersonnel_json POL12346]> ∅) /\
  Submit (file (set_Status "Closed" FIR3)) (Ok "Org1MSP") healthy
    (<["FIR3" := encode FIR_json FIR3]> ∅) =
    (Err (FIRAlreadyExists "FIR3"), <["FIR3" := encode FIR_json FIR3]> ∅).
Proof.
  destruct (second_create_fails ∅
              (<["POL12346" := encode PolicePersonnel_json POL12346]> ∅)
              healthy healthy POL12346 (set_Name "Another" POL12346)
              FIR3 FIR3) as [Hpersonnel _].
  destruct (second_create_fails ∅ (<["FIR3" := encode FIR_json FIR3]> ∅)
              healthy healthy POL12346 POL12346
              FIR3 (set_Status "Closed" FIR3)) as [_ Hcase].
  split.
  - destruct Hpersonnel as [H _]; [reflexivity..|exact H].
  - destruct Hcase as [H _]; [reflexivity..|exact H].
Defined.


Lemma absent_key_is_NotFound_witness :
  Submit (UpdateFIR "NON_EXISTENT" "Closed") (Ok "Org1MSP") healthy
    (<["FIR3" := encode FIR_json FIR3]> ∅) =
    (Err (FIRDoesNotExist "NON_EXISTENT"),
     <["FIR3" := encode FIR_json FIR3]> ∅).
Proof.
  destruct (absent_key_is_NotFound (<["FIR3" := encode FIR_json FIR3]> ∅)
              healthy POL12346 "NON_EXISTENT" "Closed")
    as (_ & (_ & H & _) & _); [reflexivity..|exact H].
Defined.



Lemma create_checks_the_key_only_witness :
  Submit (create (set_OfficerID "FIR3" POL12346)) (Ok "Org1MSP") healthy
    (<["FIR3" := encode FIR_json FIR3]> ∅) =
    (Err (OfficerAlreadyExists "FIR3"),
     <["FIR3" := encode FIR_json FIR3]> ∅) /\
  Submit (file (set_FIRID "POL12346" FIR3)) (Ok "Org1MSP") healthy
    (<["POL12346" := encode PolicePersonnel_json POL12346]> ∅) =
    (Err (FIRAlreadyExists "POL12346"),
     <["POL12346" := encode PolicePersonnel_json POL12346]> ∅).
Proof.
  destruct (create_checks_the_key_only
              (<["FIR3" := encode FIR_json FIR3]> ∅) (encode FIR_json FIR3)
              healthy (set_OfficerID "FIR3" POL12346) FIR3)
    as [Hpersonnel _].
  destruct (create_checks_the_key_only
              (<["POL12346" := encode PolicePersonnel_json POL12346]> ∅)
              (encode PolicePersonnel_json POL12346)
              healthy POL12346 (set_FIRID "POL12346" FIR3))
    as [_ Hcase].
  split.
  - destruct Hpersonnel as [H _]; [reflexivity..|exact H].
  - destruct Hcase as [H _]; [reflexivity..|exact H].
Defined.
End Witnesses.

(** ** The further properties at concrete inputs *)

Section FurtherWitnesses.
Import PolicemanRecord FIRRecord.

Lemma gate_fails_without_identity_witness :
  invoke (createPersonnel POL12346)
    (begin (Err (External "no certificate")) healthy ∅) =
  (Err (UnableToGetMSPID (External "no certificate")),
   begin (Err (External "no certificate")) healthy ∅).
Proof.
  destruct (gate_fails_without_identity (createPersonnel POL12346)
              (begin (Err (External "no certificate")) healthy ∅)
              (External "no certificate") eq_refl eq_refl) as [H _].
  exact H.
Defined.


Lemma delete_removes_the_key_witness :
  Submit (DeleteFIR "FIR3") (Ok "Org1MSP") healthy
    (<["FIR3" := encode FIR_json FIR3]> ∅) =
  (Ok tt, delete "FIR3" (<["FIR3" := encode FIR_json FIR3]> ∅)).
Proof.
  pose proof (delete_removes_the_key (<["FIR3" := encode FIR_json FIR3]> ∅)
                (encode FIR_json FIR3) "FIR3" (Ok "Org2MSP")) as H.
  destruct H as [[_ H] _]; [reflexivity|exact H].
Defined.

Lemma delete_undoes_create_witness :
  Submit (DeletePolicePersonnel "POL12346") (Ok "Org1MSP") healthy
    (Submit (create POL12346) (Ok "Org1MSP") healthy ∅).2 = (Ok tt, ∅) /\
  Submit (DeleteFIR "FIR3") (Ok "Org1MSP") healthy
    (Submit (file FIR3) (Ok "Org1MSP") healthy ∅).2 = (Ok tt, ∅).
Proof.
  destruct (delete_undoes_create ∅ POL12346 FIR3) as [Hpersonnel Hcase].
  split; [apply Hpersonnel|apply Hcase]; reflexivity.
Defined.

Lemma read_of_a_missing_or_undecodable_value_witness :
  Submit (ReadFIR "FIR3") (Ok "Org2MSP") healthy ∅ =
    (Err (FIRDoesNotExist "FIR3"), ∅) /\
  Submit (ReadPolicePersonnel "FIR3") (Ok "Org1MSP") healthy
    {["FIR3" := Garbage "unexpected end of JSON input"]} =
    (Err (JSONError "unexpected end of JSON input"),
     {["FIR3" := Garbage "unexpected end of JSON input"]}).
Proof.
  split.
  - destruct (read_of_a_missing_or_undecodable_value ∅ "FIR3" "Closed"
                (Ok "Org2MSP") (Garbage "unexpected end of JSON input")
                (JSONError "unexpected end of JSON input")
                (JSONError "unexpected end of JSON input")) as [Habsent _].
    destruct Habsent as (_ & H & _); [reflexivity|exact H].
  - destruct (read_of_a_missing_or_undecodable_value
                {["FIR3" := Garbage "unexpected end of JSON input"]}
                "FIR3" "Closed" (Ok "Org2MSP")
                (Garbage "unexpected end of JSON input")
                (JSONError "unexpected end of JSON input")
                (JSONError "unexpected end of JSON input"))
      as (_ & Hpersonnel & _).
    destruct Hpersonnel as [H _]; [reflexivity..|exact H].
Defined.

Lemma UpdateFIR_last_status_wins_witness :
  Submit (UpdateFIR "FIR3" "Closed") (Ok "Org1MSP") healthy
    (Submit (UpdateFIR "FIR3" "Investigation") (Ok "Org1MSP") healthy
       (<["FIR3" := encode FIR_json FIR3]> ∅)).2 =
  (Ok tt,
   <["FIR3" := encode FIR_json (set_Status "Closed" FIR3)]>
     (<["FIR3" := encode FIR_json FIR3]> ∅)).
Proof.
  destruct (UpdateFIR_last_status_wins (<["FIR3" := encode FIR_json FIR3]> ∅)
              "FIR3" "Investigation" "Closed" FIR3) as [H _];
    [reflexivity|exact H].
Defined.

Lemma UpdateFIR_overwrites_a_personnel_record_witness :
  Submit (ReadFIR "POL12346") (Ok "Org2MSP") healthy
    (<["POL12346" := encode PolicePersonnel_json POL12346]> ∅) =
  (Ok (zero FIR_json),
   <["POL12346" := encode PolicePersonnel_json POL12346]> ∅).
Proof.
  pose proof (UpdateFIR_overwrites_a_personnel_record
                (<["POL12346" := encode PolicePersonnel_json POL12346]> ∅)
                "POL12346" "Closed" (Ok "Org2MSP") POL12346) as H.
  destruct H as [H _]; [reflexivity|exact H].
Defined.

Lemma other_keys_are_left_alone_witness :
  (Submit (invoke (updateCaseStatus "FIR1" "Closed")) (Ok "Org1MSP") healthy
     (<["FIR2" := encode FIR_json FIR2]>
        (<["FIR1" := encode FIR_json FIR1]> ∅))).2 !! "FIR2" =
  Some (encode FIR_json FIR2).
Proof.
  destruct (other_keys_are_left_alone (updateCaseStatus "FIR1" "Closed")
              (Ok "Org1MSP") healthy
              (<["FIR2" := encode FIR_json FIR2]>
                 (<["FIR1" := encode FIR_json FIR1]> ∅))) as [H _].
  rewrite (H "FIR2"); [reflexivity|].
  apply (bool_decide_unpack _). vm_compute. exact I.
Defined.

Lemma errors_precede_writes_witness :
  commit
    (stub (invoke (updateCaseStatus "NON_EXISTENT_FIR" "Closed")
             (begin (Ok "Org1MSP") healthy
                (<["FIR1" := encode FIR_json FIR1]> ∅))).2) =
  <["FIR1" := encode FIR_json FIR1]> ∅.
Proof.
  destruct (errors_precede_writes
              (updateCaseStatus "NON_EXISTENT_FIR" "Closed") (Ok "Org1MSP"))
    as [H _].
  rewrite (H ltac:(discriminate)
             (begin (Ok "Org1MSP") healthy
                (<["FIR1" := encode FIR_json FIR1]> ∅))
             (FIRDoesNotExist "NON_EXISTENT_FIR"));
    reflexivity.
Defined.

Lemma a_failed_read_is_reported_witness :
  invoke (createPersonnel POL12346) (begin (Ok "Org1MSP") unavailable ∅) =
  (Err (FailedToRead (External "ledger unavailable")),
   logged (GetStateCall "POL12346") (begin (Ok "Org1MSP") unavailable ∅)).
Proof.
  destruct (a_failed_read_is_reported (createPersonnel POL12346)
              (begin (Ok "Org1MSP") unavailable ∅) "POL12346"
              "ledger unavailable" eq_refl (fun _ => eq_refl) eq_refl)
    as [H _].
  exact H.
Defined.

Lemma a_failed_write_is_reported_witness :
  Submit (create POL12346) (Ok "Org1MSP")
    (read_only_ledger "ledger unavailable") ∅ =
  (Err (External "ledger unavailable"), ∅).
Proof.
  pose proof (a_failed_write_is_reported ∅ "ledger unavailable"
                (Ok "Org1MSP") POL12346 FIR3 "FIR3" "Closed"
                (encode FIR_json FIR3)) as H.
  destruct H as (_ & H & _). apply H. reflexivity.
Defined.

Lemma enumeration_returns_one_record_per_key_witness :
  length [FIR1; FIR2] =
  size (<["FIR2" := encode FIR_json FIR2]>
          (<["FIR1" := encode FIR_json FIR1]> (∅ : gmap string bytes))).
Proof.
  destruct (enumeration_returns_one_record_per_key
              (<["FIR2" := encode FIR_json FIR2]>
                 (<["FIR1" := encode FIR_json FIR1]> ∅))
              (<["FIR2" := encode FIR_json FIR2]>
                 (<["FIR1" := encode FIR_json FIR1]> ∅))
              (Ok "Org2MSP") healthy [] [FIR1; FIR2]) as [_ H].
  destruct H as (_ & _ & H); [by vm_compute|exact H].
Defined.

Lemma enumeration_fails_on_an_undecodable_value_witness :
  fails_with
    (Submit GetAllFIRs (Ok "Org2MSP") healthy
       (<["FIR9" := Garbage "unexpected end of JSON input"]>
          (<["FIR1" := encode FIR_json FIR1]> ∅))).1
    SerializationError.
Proof.
  destruct (enumeration_fails_on_an_undecodable_value
              (<["FIR9" := Garbage "unexpected end of JSON input"]>
                 (<["FIR1" := encode FIR_json FIR1]> ∅))
              (Ok "Org2MSP") "FIR9" (Garbage "unexpected end of JSON input")
              (JSONError "unexpected end of JSON input")
              (JSONError "unexpected end of JSON input")) as [_ H];
    [by vm_compute|].
  apply H. reflexivity.
Defined.

Lemma storage_errors_come_from_the_platform_witness :
  ~ fails_with
      (invoke (deleteCase "FIR1") (begin (Ok "Org1MSP") healthy ∅)).1
      StorageError.
Proof.
  apply (storage_errors_come_from_the_platform (deleteCase "FIR1")
           (begin (Ok "Org1MSP") healthy ∅)).
  intros c. reflexivity.
Defined.
End FurtherWitnesses.
